(** * MATHBOT server: the chat adapter, the connection manager and the
      websocket handler of [server.py], embedded in Rocq.

    The Python module is a single file.  Its module-level globals
    ([OPENAI_API_KEY], [OPENAI_MODEL], [USE_MOCK], [client]) become the
    variables of a section; the standard library's [json.loads] and the
    remote chat-completion service are parameters of the same section.
    Python values are modelled by the type [json] of the data that
    [json.loads] produces, exceptions by an error result, and the effects
    of the coroutines (registry updates, network calls, frames written)
    by passing an explicit [world]. *)

From Stdlib Require Import String Ascii List ZArith NArith Bool Lia.
Import ListNotations.
Open Scope string_scope.
Local Set Warnings "-register-all".

(* ================================================================== *)
(** * Python data *)
(* ================================================================== *)

(** A Python [float] obtained from a JSON literal.  [FDec neg m e] is the
    double nearest to [(-1)^neg * m * 10^e] (the literal is kept in
    decimal: the server never computes with floats, it only tests them
    for truth and passes them through). *)
Inductive pyfloat : Type :=
| FDec (neg : bool) (m : N) (e : Z)
| FInf (neg : bool)
| FNaN.

(** The Python objects that [json.loads] returns and [json.dumps]
    accepts: [None], [bool], [int], [float], [str], [list] and [dict]
    with string keys (insertion ordered). *)
Inductive json : Type :=
| JNull
| JBool (b : bool)
| JInt (z : Z)
| JFloat (f : pyfloat)
| JStr (s : string)
| JList (l : list json)
| JDict (d : list (string * json)).

(** [float(lit) == 0.0]: the literal is zero or underflows to zero
    (round to nearest even: everything up to [2^-1075] becomes [0.0]). *)
Definition float_is_zero (f : pyfloat) : bool :=
  match f with
  | FDec _ m e =>
      (m =? 0)%N
      || ((e <? 0)%Z && (Z.of_N m * 2 ^ 1075 <=? 10 ^ (- e))%Z)
  | FInf _ => false
  | FNaN => false
  end.

(** Python truth value testing, [bool(v)]. *)
Definition truthy (v : json) : bool :=
  match v with
  | JNull => false
  | JBool b => b
  | JInt z => negb (z =? 0)%Z
  | JFloat f => negb (float_is_zero f)
  | JStr s => negb (s =? EmptyString)
  | JList l => match l with [] => false | _ => true end
  | JDict d => match d with [] => false | _ => true end
  end.

(** [isinstance(v, str)]. *)
Definition is_str (v : json) : bool :=
  match v with JStr _ => true | _ => false end.

(** ** Dictionaries *)

Fixpoint dict_lookup (d : list (string * json)) (k : string) : option json :=
  match d with
  | [] => None
  | (k', v) :: d' => if k' =? k then Some v else dict_lookup d' k
  end.

(** [d[k] = v]: an existing key keeps its position and takes the new
    value, a new key goes last. *)
Fixpoint dict_set (d : list (string * json)) (k : string) (v : json)
  : list (string * json) :=
  match d with
  | [] => [(k, v)]
  | (k', v') :: d' =>
      if k' =? k then (k', v) :: d' else (k', v') :: dict_set d' k v
  end.

(** [d.get(k, default)] on a dict. *)
Definition dict_get (d : list (string * json)) (k : string) (default : json)
  : json :=
  match dict_lookup d k with
  | Some v => v
  | None => default
  end.

(** ** Strings *)

Fixpoint starts_with (p s : string) : bool :=
  match p, s with
  | EmptyString, _ => true
  | String _ _, EmptyString => false
  | String a p', String b s' => (a =? b)%char && starts_with p' s'
  end.

(** [sub in s] for two [str]. *)
Fixpoint py_in (sub s : string) : bool :=
  starts_with sub s
  || match s with
     | EmptyString => false
     | String _ s' => py_in sub s'
     end.

(* ================================================================== *)
(** * Exceptions *)
(* ================================================================== *)

(** The exception classes that occur; all of them derive from
    [Exception].  Interpreter-level signals ([KeyboardInterrupt], task
    cancellation), which [except Exception] lets through, are outside the
    model. *)
Inductive exc_class : Type :=
| TypeError
| AttributeError
| KeyError
| IndexError
| JSONDecodeError
| RuntimeError
| WebSocketDisconnect
| UpstreamError.

(** An exception object: its class and [str(e)]. *)
Record exc : Type := Exc { exc_cls : exc_class; exc_str : string }.

Inductive res (A : Type) : Type :=
| Ret (a : A)
| Raise (e : exc).
Arguments Ret {A} a.
Arguments Raise {A} e.

Definition exc_class_eqb (a b : exc_class) : bool :=
  match a, b with
  | TypeError, TypeError | AttributeError, AttributeError
  | KeyError, KeyError | IndexError, IndexError
  | JSONDecodeError, JSONDecodeError | RuntimeError, RuntimeError
  | WebSocketDisconnect, WebSocketDisconnect
  | UpstreamError, UpstreamError => true
  | _, _ => false
  end.

(** [try: r  except Exception: h] on a pure computation. *)
Definition rescue {A : Type} (r : res A) (h : exc -> res A) : res A :=
  match r with
  | Ret a => Ret a
  | Raise e => h e
  end.

(** [parsed.get(k, default)]: only a [dict] has the method; on any other
    value the attribute lookup raises [AttributeError]. *)
Definition py_get (v : json) (k : string) (default : json) : res json :=
  match v with
  | JDict d => Ret (dict_get d k default)
  | _ => Raise (Exc AttributeError "object has no attribute 'get'")
  end.

(* ================================================================== *)
(** * A reference decoder for [json.loads] *)
(* ================================================================== *)

(** The adapter and the handler below are parametric in the decoder.
    This module is the decoder the concrete runs use: Python's
    [json.loads] on a [str], written after [json.decoder] and
    [json.scanner] (strict mode, default hooks).  Strings are byte
    strings holding UTF-8.  A float literal is kept as its decimal (a
    literal beyond the range of a double is not turned into an
    infinity), and the interpreter's limits on the digits of an [int]
    and on nesting depth are not reproduced; the runs below use no such
    input. *)
Module Decoder.

Definition decode_error {A : Type} (msg : string) : res A :=
  Raise (Exc JSONDecodeError msg).

Definition quote : ascii := "034"%char.
Definition backslash : ascii := "092"%char.

Definition is_ws (c : ascii) : bool :=
  (c =? " ")%char || (c =? "009")%char || (c =? "010")%char
  || (c =? "013")%char.

Fixpoint skip_ws (s : string) : string :=
  match s with
  | String c s' => if is_ws c then skip_ws s' else s
  | EmptyString => s
  end.

Definition is_digit (c : ascii) : bool :=
  (48 <=? nat_of_ascii c)%nat && (nat_of_ascii c <=? 57)%nat.

Definition digit_val (c : ascii) : N := N_of_ascii c - 48.

(** The longest run of decimal digits at the front of [s]: its value
    read after [acc], its length, and the rest. *)
Fixpoint take_digits (acc : N) (n : nat) (s : string) : N * nat * string :=
  match s with
  | String c s' =>
      if is_digit c then take_digits (10 * acc + digit_val c) (S n) s'
      else (acc, n, s)
  | EmptyString => (acc, n, s)
  end.

Definition hex_val (c : ascii) : option N :=
  let n := N_of_ascii c in
  if (48 <=? n)%N && (n <=? 57)%N then Some (n - 48)%N
  else if (65 <=? n)%N && (n <=? 70)%N then Some (n - 55)%N
  else if (97 <=? n)%N && (n <=? 102)%N then Some (n - 87)%N
  else None.

(** Four hexadecimal digits after [\u]. *)
Definition decode_uXXXX (s : string) : option (N * string) :=
  match s with
  | String a (String b (String c (String d rest))) =>
      match hex_val a, hex_val b, hex_val c, hex_val d with
      | Some x, Some y, Some z, Some w =>
          Some ((((x * 16 + y) * 16 + z) * 16 + w)%N, rest)
      | _, _, _, _ => None
      end
  | _ => None
  end.

Definition byte (n : N) : string := String (ascii_of_N n) EmptyString.

(** UTF-8 form of a code point (a lone surrogate is written with the
    three-byte pattern). *)
Definition utf8 (cp : N) : string :=
  if (cp <? 128)%N then byte cp
  else if (cp <? 2048)%N then
    byte (192 + cp / 64) ++ byte (128 + cp mod 64)
  else if (cp <? 65536)%N then
    byte (224 + cp / 4096) ++ byte (128 + (cp / 64) mod 64)
    ++ byte (128 + cp mod 64)
  else
    byte (240 + cp / 262144) ++ byte (128 + (cp / 4096) mod 64)
    ++ byte (128 + (cp / 64) mod 64) ++ byte (128 + cp mod 64).

Definition simple_escape (c : ascii) : option ascii :=
  if (c =? quote)%char then Some quote
  else if (c =? backslash)%char then Some backslash
  else if (c =? "/")%char then Some "/"%char
  else if (c =? "b")%char then Some "008"%char
  else if (c =? "f")%char then Some "012"%char
  else if (c =? "n")%char then Some "010"%char
  else if (c =? "r")%char then Some "013"%char
  else if (c =? "t")%char then Some "009"%char
  else None.

(** [py_scanstring]: the input is what follows the opening quote; the
    result is the decoded string and what follows the closing quote. *)
Fixpoint py_scanstring (fuel : nat) (s : string) : res (string * string) :=
  match fuel with
  | O => decode_error "Unterminated string"
  | S fuel' =>
      match s with
      | EmptyString => decode_error "Unterminated string"
      | String c rest =>
          if (c =? quote)%char then Ret (EmptyString, rest)
          else if (c =? backslash)%char then
            match rest with
            | EmptyString => decode_error "Unterminated string"
            | String "u" rest1 =>
                match decode_uXXXX rest1 with
                | None => decode_error "Invalid \uXXXX escape"
                | Some (hi, rest2) =>
                    let pair :=
                      if (55296 <=? hi)%N && (hi <=? 56319)%N then
                        match rest2 with
                        | String b (String "u" rest3) =>
                            if (b =? backslash)%char then
                              match decode_uXXXX rest3 with
                              | Some (lo, rest4) =>
                                  if (56320 <=? lo)%N && (lo <=? 57343)%N
                                  then Some ((65536 + (hi - 55296) * 1024
                                              + (lo - 56320))%N, rest4)
                                  else None
                              | None => None
                              end
                            else None
                        | _ => None
                        end
                      else None in
                    let '(cp, rest') :=
                      match pair with
                      | Some p => p
                      | None => (hi, rest2)
                      end in
                    match py_scanstring fuel' rest' with
                    | Ret (str, tail) => Ret (utf8 cp ++ str, tail)
                    | Raise e => Raise e
                    end
                end
            | String e rest1 =>
                match simple_escape e with
                | None => decode_error "Invalid \escape"
                | Some ch =>
                    match py_scanstring fuel' rest1 with
                    | Ret (str, tail) => Ret (String ch str, tail)
                    | Raise ex => Raise ex
                    end
                end
            end
          else if (N_of_ascii c <? 32)%N then
            decode_error "Invalid control character"
          else
            match py_scanstring fuel' rest with
            | Ret (str, tail) => Ret (String c str, tail)
            | Raise e => Raise e
            end
      end
  end.

(** [NUMBER_RE]: an optional minus sign, then 0 or a digit run that
    does not start with 0; optionally a point and one or more digits;
    optionally e or E, a sign and one or more digits.  A fraction or an
    exponent makes a [float], otherwise the literal is an [int].  [None]
    when the pattern does not match at the front of [s]. *)
Definition match_number (s : string) : option (json * string) :=
  let '(neg, s1) :=
    match s with
    | String "-" r => (true, r)
    | _ => (false, s)
    end in
  let integer :=
    match s1 with
    | String "0" r => Some (0%N, r)
    | String c _ =>
        if is_digit c then
          let '(v, _, r) := take_digits 0 0 s1 in Some (v, r)
        else None
    | EmptyString => None
    end in
  match integer with
  | None => None
  | Some (ip, s2) =>
      let '(m, fl, s3, has_frac) :=
        match s2 with
        | String "." r =>
            let '(v, n, r') := take_digits ip 0 r in
            match n with
            | O => (ip, O, s2, false)
            | _ => (v, n, r', true)
            end
        | _ => (ip, O, s2, false)
        end in
      let '(ex, s4, has_exp) :=
        match s3 with
        | String c r =>
            if (c =? "e")%char || (c =? "E")%char then
              let '(eneg, r1) :=
                match r with
                | String "-" r' => (true, r')
                | String "+" r' => (false, r')
                | _ => (false, r)
                end in
              let '(v, n, r2) := take_digits 0 0 r1 in
              match n with
              | O => (0%Z, s3, false)
              | _ => ((if eneg then - Z.of_N v else Z.of_N v)%Z, r2, true)
              end
            else (0%Z, s3, false)
        | EmptyString => (0%Z, s3, false)
        end in
      if has_frac || has_exp then
        Some (JFloat (FDec neg m (ex - Z.of_nat fl)), s4)
      else
        Some (JInt (if neg then - Z.of_N ip else Z.of_N ip), s4)
  end.

Fixpoint drop (n : nat) (s : string) : string :=
  match n, s with
  | S n', String _ s' => drop n' s'
  | _, _ => s
  end.

(** The part of [scan_once] for a value that is not a string, an object
    or an array, in the scanner's order. *)
Definition constant (s : string) : res (json * string) :=
  if starts_with "null" s then Ret (JNull, drop 4 s)
  else if starts_with "true" s then
    Ret (JBool true, drop 4 s)
  else if starts_with "false" s then
    Ret (JBool false, drop 5 s)
  else
    match match_number s with
    | Some r => Ret r
    | None =>
        if starts_with "NaN" s then
          Ret (JFloat FNaN, drop 3 s)
        else if starts_with "Infinity" s then
          Ret (JFloat (FInf false), drop 8 s)
        else if starts_with "-Infinity" s then
          Ret (JFloat (FInf true), drop 9 s)
        else decode_error "Expecting value"
    end.

(** [scan_once], [JSONObject] and [JSONArray] of the scanner; [fuel]
    bounds the number of calls, each of which consumes input. *)
Fixpoint scan_once (fuel : nat) (s : string) : res (json * string) :=
  match fuel with
  | O => decode_error "Expecting value"
  | S fuel' =>
      match s with
      | String c rest =>
          if (c =? quote)%char then
            match py_scanstring (String.length rest) rest with
            | Ret (str, tail) => Ret (JStr str, tail)
            | Raise e => Raise e
            end
          else if (c =? "{")%char then
            match skip_ws rest with
            | String "}" tail => Ret (JDict [], tail)
            | body => JSONObject fuel' [] body
            end
          else if (c =? "[")%char then
            match skip_ws rest with
            | String "]" tail => Ret (JList [], tail)
            | body => JSONArray fuel' [] body
            end
          else constant s
      | EmptyString => decode_error "Expecting value"
      end
  end

with JSONObject (fuel : nat) (pairs : list (string * json)) (s : string)
  : res (json * string) :=
  match fuel with
  | O => decode_error "Expecting value"
  | S fuel' =>
      match s with
      | String c rest =>
          if (c =? quote)%char then
            match py_scanstring (String.length rest) rest with
            | Raise e => Raise e
            | Ret (key, s1) =>
                match skip_ws s1 with
                | String ":" s2 =>
                    match scan_once fuel' (skip_ws s2) with
                    | Raise e => Raise e
                    | Ret (value, s3) =>
                        let pairs' := dict_set pairs key value in
                        match skip_ws s3 with
                        | String "}" tail => Ret (JDict pairs', tail)
                        | String "," s4 =>
                            JSONObject fuel' pairs' (skip_ws s4)
                        | _ => decode_error "Expecting ',' delimiter"
                        end
                    end
                | _ => decode_error "Expecting ':' delimiter"
                end
            end
          else
            decode_error
              "Expecting property name enclosed in double quotes"
      | EmptyString =>
          decode_error "Expecting property name enclosed in double quotes"
      end
  end

with JSONArray (fuel : nat) (values : list json) (s : string)
  : res (json * string) :=
  match fuel with
  | O => decode_error "Expecting value"
  | S fuel' =>
      match scan_once fuel' s with
      | Raise e => Raise e
      | Ret (value, s1) =>
          match skip_ws s1 with
          | String "]" tail => Ret (JList (values ++ [value]), tail)
          | String "," s2 => JSONArray fuel' (values ++ [value]) (skip_ws s2)
          | _ => decode_error "Expecting ',' delimiter"
          end
      end
  end.

(** [json.loads(s)] for a [str]: one value between optional
    whitespace, and nothing after it. *)
Definition loads (s : string) : res json :=
  match scan_once (S (String.length s)) (skip_ws s) with
  | Raise e => Raise e
  | Ret (obj, rest) =>
      match skip_ws rest with
      | EmptyString => Ret obj
      | _ => decode_error "Extra data"
      end
  end.

(** JSON texts are written below with ['] where the text has a double
    quote. *)
Definition dq (s : string) : string :=
  string_of_list_ascii
    (map (fun c => if (c =? "'")%char then quote else c)
         (list_ascii_of_string s)).

End Decoder.

(* ================================================================== *)
(** * The world the coroutines act on *)
(* ================================================================== *)

(** A [WebSocket] object; the registry compares connections by
    identity. *)
Definition WebSocket : Type := nat.

(** The keyword arguments of one chat-completion call.  [req_legacy] says
    that the call went to [openai.ChatCompletion.create] instead of
    [client.chat.completions.create]. *)
Record request : Type := Request {
  req_legacy : bool;
  req_model : string;
  req_messages : json;
  req_temperature : pyfloat;
  req_max_tokens : Z
}.

(** The object a chat-completion call returns, as far as the adapter
    looks at it: the value, or the exception, of each of the three access
    paths it tries, and [str(resp)].  The payload of a reply is JSON
    data. *)
Record reply : Type := Reply {
  item_message_content : res json; (* resp["choices"][0]["message"]["content"] *)
  attr_message_content : res json; (* resp.choices[0].message.content *)
  item_text : res json;            (* resp["choices"][0]["text"] *)
  reply_str : string               (* str(resp) *)
}.

(** What a call to the remote service does. *)
Inductive outcome : Type :=
| Returns (resp : reply)
| Raises (e : exc).

Record world : Type := World {
  active_connections : list WebSocket; (* manager.active_connections *)
  api_calls : list request;            (* calls issued so far, oldest first *)
  adapter_calls : list json;           (* prompts [call_openai_chat] was entered with *)
  outbox : list (WebSocket * json)     (* documents written by send_text, oldest first *)
}.

Definition set_connections (l : list WebSocket) (w : world) : world :=
  World l (api_calls w) (adapter_calls w) (outbox w).

Definition push_api_call (r : request) (w : world) : world :=
  World (active_connections w) (api_calls w ++ [r]) (adapter_calls w)
        (outbox w).

Definition push_adapter_call (p : json) (w : world) : world :=
  World (active_connections w) (api_calls w) (adapter_calls w ++ [p])
        (outbox w).

Definition push_frame (ws : WebSocket) (doc : json) (w : world) : world :=
  World (active_connections w) (api_calls w) (adapter_calls w)
        (outbox w ++ [(ws, doc)]).

(** ** Computations: state passing with exceptions *)

Definition M (A : Type) : Type := world -> res A * world.

Class Monad (T : Type -> Type) : Type := {
  ret : forall {A : Type}, A -> T A;
  bind : forall {A B : Type}, T A -> (A -> T B) -> T B
}.

#[global] Instance Monad_res : Monad res := {|
  ret := @Ret;
  bind := fun A B r k => match r with Ret a => k a | Raise e => Raise e end
|}.

#[global] Instance Monad_M : Monad M := {|
  ret := fun A a w => (Ret a, w);
  bind := fun A B m k w =>
            match m w with
            | (Ret a, w') => k a w'
            | (Raise e, w') => (Raise e, w')
            end
|}.

Declare Scope monad_scope.
Delimit Scope monad_scope with monad.
Notation "x <- m ;; k" := (bind m (fun x => k))
  (at level 61, m at next level, right associativity) : monad_scope.
Notation "m ;; k" := (bind m (fun _ => k))
  (at level 61, right associativity) : monad_scope.
Open Scope monad_scope.

(** A pure computation run inside a coroutine. *)
Definition lift {A : Type} (r : res A) : M A := fun w => (r, w).

Definition modify (f : world -> world) : M unit := fun w => (Ret tt, f w).

(** [try: m  except Exception as e: h e]. *)
Definition try_except {A : Type} (m : M A) (h : exc -> M A) : M A :=
  fun w =>
    match m w with
    | (Ret a, w') => (Ret a, w')
    | (Raise e, w') => h e w'
    end.

(** [try: m  except cls: h]: another class of exception propagates. *)
Definition try_except_class {A : Type} (cls : exc_class) (m : M A) (h : M A)
  : M A :=
  fun w =>
    match m w with
    | (Ret a, w') => (Ret a, w')
    | (Raise e, w') =>
        if exc_class_eqb (exc_cls e) cls then h w' else (Raise e, w')
    end.

(** [a or b], with [b] evaluated only when [a] is falsy. *)
Definition py_or (a : json) (b : res json) : res json :=
  if truthy a then Ret a else b.

(* ================================================================== *)
(** * The fixed texts of the adapter *)
(* ================================================================== *)

Definition nl : string := String "010"%char EmptyString.

Definition no_key_explanation : string :=
  "OpenAI API key not set on server. Please set OPENAI_API_KEY in the environment to enable LLM responses. Example: export OPENAI_API_KEY=your_key".

Definition no_key_speech : string :=
  "Open A I key not set on the server. Please set it and restart the server.".

Definition mock_explanation : string :=
  "(Mock) The derivative of x^2 is 2x. In general, d/dx x^n = n x^{n-1}.".

Definition mock_speech : string :=
  "Mock answer: the derivative of x squared is two x.".

Definition system_prompt : string :=
  "You are an expert undergraduate mathematics tutor." ++ nl ++
  "When given a user question, respond with a JSON object with two keys: 'explanation' and 'speech'." ++ nl ++
  "- 'explanation' should contain the full detailed explanation. You may include LaTeX delimiters (like $...$ or $$...$$) where appropriate." ++ nl ++
  "- 'speech' should be a concise, clear spoken explanation suitable for text-to-speech (no LaTeX markup)." ++ nl ++
  "Always return valid JSON and nothing else. If you must include code or math, ensure the 'speech' field remains plain text." ++ nl.

Definition quota_user_msg : string :=
  "OpenAI returned a quota error (insufficient quota or rate limit). "
  ++ "Check your OpenAI plan/billing and consider setting OPENAI_MODEL=gpt-3.5-turbo or enabling USE_MOCK=true for testing.".

Definition unreachable_speech : string :=
  "Sorry, I could not reach the language model.".

Definition request_failed (errmsg : string) : string :=
  "OpenAI request failed: " ++ errmsg.

(** The dict [{"explanation": e, "speech": s}]. *)
Definition answer (e s : json) : json :=
  JDict [("explanation", e); ("speech", s)].

(* ================================================================== *)
(** * server.py *)
(* ================================================================== *)

(** What [await websocket.receive_text()] meets. *)
Inductive event : Type :=
| TextFrame (data : string)   (* a text frame: its payload is returned *)
| ClientDisconnect            (* the peer closed: WebSocketDisconnect *)
| ReceiveError (e : exc).     (* the call fails with another exception *)

Definition receive_text (ev : event) : M string :=
  match ev with
  | TextFrame data => ret data
  | ClientDisconnect => lift (Raise (Exc WebSocketDisconnect EmptyString))
  | ReceiveError e => lift (Raise e)
  end.

(** [ws in l]. *)
Definition py_contains (ws : WebSocket) (l : list WebSocket) : bool :=
  existsb (Nat.eqb ws) l.

(** [l.remove(ws)], called when [ws in l]: the first occurrence goes. *)
Fixpoint py_remove (ws : WebSocket) (l : list WebSocket) : list WebSocket :=
  match l with
  | [] => []
  | x :: l' => if Nat.eqb ws x then l' else x :: py_remove ws l'
  end.

Section Server.

(** The module-level globals, fixed when the process starts. *)
Variable OPENAI_API_KEY : option string.  (* os.getenv("OPENAI_API_KEY") *)
Variable OPENAI_MODEL : string.
Variable USE_MOCK : bool.
Variable client : bool.                   (* client is not None *)

(** [json.loads] on a [str]. *)
Variable json_loads : string -> res json.

(** The remote service: what call number [n] (counting from 0) does
    when issued with the given arguments. *)
Variable upstream : nat -> request -> outcome.

(** [bool(OPENAI_API_KEY)]: set and not empty. *)
Definition key_present : bool :=
  match OPENAI_API_KEY with
  | Some k => negb (k =? EmptyString)
  | None => false
  end.

(** [json.loads(content)]: anything but a [str] is a [TypeError]. *)
Definition py_json_loads (content : json) : res json :=
  match content with
  | JStr s => json_loads s
  | _ =>
      Raise (Exc TypeError "the JSON object must be str, bytes or bytearray")
  end.

(** ** [call_openai_chat] *)

Definition messages (prompt : json) : json :=
  JList [ JDict [("role", JStr "system"); ("content", JStr system_prompt)];
          JDict [("role", JStr "user"); ("content", prompt)] ].

(** [sync_call]: the arguments of the one call, to the new client when
    there is one and to the older interface otherwise. *)
Definition sync_call (prompt : json) : request :=
  let model := OPENAI_MODEL in
  if client then
    Request false model (messages prompt) (FDec false 2 (-1)) 800
  else
    Request true model (messages prompt) (FDec false 2 (-1)) 800.

(** [await asyncio.to_thread(sync_call)]. *)
Definition to_thread (req : request) : M reply :=
  fun w =>
    let w' := push_api_call req w in
    match upstream (List.length (api_calls w)) req with
    | Returns resp => (Ret resp, w')
    | Raises e => (Raise e, w')
    end.

(** Lines 130-143: the reply's text, by the first access path that
    does not raise. *)
Definition extract_content (resp : reply) : res json :=
  rescue
    (rescue (item_message_content resp)
            (fun _ => attr_message_content resp))
    (fun _ =>
       rescue (item_text resp)
              (fun _ => Ret (JStr (reply_str resp)))).

(** Lines 148-150: the two fields out of the parsed text. *)
Definition select_fields (parsed content : json) : res json :=
  explanation <-
    (e1 <- py_get parsed "explanation" JNull ;;
     py_or e1 (e2 <- py_get parsed "explain" JNull ;;
               py_or e2 (Ret content))) ;;
  speech <-
    (s1 <- py_get parsed "speech" JNull ;;
     py_or s1 (s2 <- py_get parsed "speak" JNull ;;
               py_or s2 (Ret explanation))) ;;
  Ret (answer explanation speech).

(** Lines 145-153: parse the text and select the fields; whatever goes
    wrong, both fields are the text itself. *)
Definition normalize (content : json) : res json :=
  rescue
    (parsed <- py_json_loads content ;;
     select_fields parsed content)
    (fun _ => Ret (answer content content)).

(** Lines 154-163: the answer for an exception of the call. *)
Definition failure_answer (e : exc) : json :=
  let errmsg := exc_str e in
  if py_in "insufficient_quota" errmsg || py_in "quota" errmsg
     || py_in "429" errmsg
  then answer (JStr (request_failed errmsg)) (JStr quota_user_msg)
  else answer (JStr (request_failed errmsg)) (JStr unreachable_speech).

(** The first step records the invocation in [adapter_calls]; it stands
    for entering the function and has no statement of its own in the
    source.  The handler passes whatever ['text'] holds, so the prompt is
    any JSON value. *)
Definition call_openai_chat (prompt : json) : M json :=
  modify (push_adapter_call prompt) ;;
  if negb key_present then
    ret (answer (JStr no_key_explanation) (JStr no_key_speech))
  else if USE_MOCK then
    ret (answer (JStr mock_explanation) (JStr mock_speech))
  else
    try_except
      (resp <- to_thread (sync_call prompt) ;;
       content <- lift (extract_content resp) ;;
       lift (normalize content))
      (fun e => ret (failure_answer e)).

(** ** [ConnectionManager] *)

(** [await websocket.accept()] is taken to succeed; the effect kept is
    the append. *)
Definition connect (websocket : WebSocket) : M unit :=
  modify (fun w =>
            set_connections (active_connections w ++ [websocket]) w).

Definition disconnect (websocket : WebSocket) : M unit :=
  fun w =>
    if py_contains websocket (active_connections w) then
      modify (set_connections (py_remove websocket (active_connections w))) w
    else (Ret tt, w).

(** ** [websocket_endpoint] *)

(** Lines 188-194: the prompt and the id of an inbound frame. *)
Definition parse_frame (data : string) : res (json * json) :=
  rescue
    (payload <- json_loads data ;;
     text <- py_get payload "text" (JStr EmptyString) ;;
     msg_id <- py_get payload "id" JNull ;;
     Ret (text, msg_id))
    (fun _ => Ret (JStr data, JNull)).

(** [await websocket.send_text(json.dumps(outgoing))]: the document
    goes out.  [outgoing] holds JSON data only, which [json.dumps]
    accepts; the frame is kept as the document it encodes.  The write is
    taken to succeed: a write that fails because the peer is gone is not
    modelled, so nothing below speaks of the state of a session after a
    failed write. *)
Definition send_text (websocket : WebSocket) (outgoing : json) : M unit :=
  modify (push_frame websocket outgoing).

(** One turn of the [while True] loop, after the frame was read. *)
Definition handle_frame (websocket : WebSocket) (data : string) : M unit :=
  p <- lift (parse_frame data) ;;
  let '(text, msg_id) := p in
  result <- call_openai_chat text ;;
  let outgoing := JDict [("id", msg_id); ("response", result)] in
  send_text websocket outgoing.

(** The loop over the events the connection delivers; with no event
    left the coroutine stays suspended in [receive_text]. *)
Fixpoint receive_loop (websocket : WebSocket) (inbox : list event)
  : M unit :=
  match inbox with
  | [] => ret tt
  | ev :: inbox' =>
      data <- receive_text ev ;;
      handle_frame websocket data ;;
      receive_loop websocket inbox'
  end.

Definition websocket_endpoint (websocket : WebSocket) (inbox : list event)
  : M unit :=
  connect websocket ;;
  try_except_class WebSocketDisconnect
    (receive_loop websocket inbox)
    (disconnect websocket).

(** ** The behaviour in closed form *)

(** The first truthy value of [a] and [b], else [c]. *)
Definition first_truthy (a b c : json) : json :=
  if truthy a then a else if truthy b then b else c.

(** Lines 148-150 on a dict, without the control flow. *)
Definition fields_by_truth (d : list (string * json)) (content : json)
  : json :=
  let explanation :=
    first_truthy (dict_get d "explanation" JNull)
                 (dict_get d "explain" JNull) content in
  answer explanation
         (first_truthy (dict_get d "speech" JNull)
                       (dict_get d "speak" JNull) explanation).

(** A field that is the extracted content itself or a truthy value. *)
Definition field_from (content v : json) : Prop :=
  v = content \/ truthy v = true.


(** How the loop over [inbox] ends: suspended after the last frame, or
    with the exception of the first event that is not a text frame. *)
Fixpoint loop_end (inbox : list event) : res unit :=
  match inbox with
  | [] => Ret tt
  | TextFrame _ :: inbox' => loop_end inbox'
  | ClientDisconnect :: _ => Raise (Exc WebSocketDisconnect EmptyString)
  | ReceiveError e :: _ => Raise e
  end.

(** The answer after a call that was made: from the reply, or from the
    exception. *)
Definition live_answer (o : outcome) : json :=
  match o with
  | Raises e => failure_answer e
  | Returns resp =>
      match content <- extract_content resp ;; normalize content with
      | Ret a => a
      | Raise e => failure_answer e
      end
  end.

(** The text frames the loop reads before it stops. *)
Fixpoint frames_read (inbox : list event) : list string :=
  match inbox with
  | TextFrame data :: inbox' => data :: frames_read inbox'
  | _ => []
  end.

(** ** The normalization as the specification words it *)

(** The value of the first of two keys that is present. *)
Definition first_present (d : list (string * json)) (k1 k2 : string)
           (fallback : json) : json :=
  match dict_lookup d k1 with
  | Some v => v
  | None =>
      match dict_lookup d k2 with
      | Some v => v
      | None => fallback
      end
  end.

Definition fields_by_presence (d : list (string * json)) (content : json)
  : json :=
  let explanation := first_present d "explanation" "explain" content in
  answer explanation (first_present d "speech" "speak" explanation).

(** [d] without the keys whose value is falsy. *)
Definition without_falsy (d : list (string * json)) : list (string * json) :=
  filter (fun kv => truthy (dict_get d (fst kv) JNull)) d.

(** The id a reply echoes: the frame's ['id'] when the frame is a JSON
    object that has one, [None] otherwise. *)
Definition echoed_id (data : string) : json :=
  match json_loads data with
  | Ret (JDict d) =>
      match dict_lookup d "id" with
      | Some v => v
      | None => JNull
      end
  | _ => JNull
  end.

(** The document that answers the frame [data] with [result]. *)
Definition reply_frame (websocket : WebSocket) (data : string)
           (result : json) : WebSocket * json :=
  (websocket, JDict [("id", echoed_id data); ("response", result)]).

(** ** The registry under interleaved sessions *)

(** The sessions share the manager; each of them touches it twice, when
    it starts and when its client disconnects. *)
Inductive registry_op : Type :=
| Connects (websocket : WebSocket)
| Disconnects (websocket : WebSocket).

Fixpoint run_registry (ops : list registry_op) : M unit :=
  match ops with
  | [] => ret tt
  | Connects websocket :: ops' => connect websocket ;; run_registry ops'
  | Disconnects websocket :: ops' => disconnect websocket ;; run_registry ops'
  end.

(** How many times [ops] registers [websocket]. *)
Fixpoint connects (websocket : WebSocket) (ops : list registry_op) : nat :=
  match ops with
  | [] => 0
  | Connects x :: ops' =>
      (if Nat.eqb websocket x then 1 else 0) + connects websocket ops'
  | Disconnects _ :: ops' => connects websocket ops'
  end.

Definition initial_world : world := World [] [] [] [].

(** A reply of the new client: an object that has attributes and no
    subscript. *)
Definition chat_completion (content : json) : reply :=
  Reply (Raise (Exc TypeError "'ChatCompletion' object is not subscriptable"))
        (Ret content)
        (Raise (Exc TypeError "'ChatCompletion' object is not subscriptable"))
        "ChatCompletion(...)".

(** A service that answers every call with a reply of the given
    content, and one that fails every call with the given error text. *)
Definition replies (content : json) : nat -> request -> outcome :=
  fun _ _ => Returns (chat_completion content).

Definition fails (errmsg : string) : nat -> request -> outcome :=
  fun _ _ => Raises (Exc UpstreamError errmsg).

(** ** Startup configuration *)

(** [c.lower()] for one character of [str.lower()]: the letters A to Z go
    to a to z.  (Outside ASCII, [str.lower()] yields no digit and none of
    the letters of "true" and "yes", so the membership test below sees
    the same.) *)
Definition ascii_lower (c : ascii) : ascii :=
  let n := nat_of_ascii c in
  if (65 <=? n)%nat && (n <=? 90)%nat then ascii_of_nat (n + 32) else c.

Fixpoint py_lower (s : string) : string :=
  match s with
  | EmptyString => EmptyString
  | String c s' => String (ascii_lower c) (py_lower s')
  end.

(** Line 25: [str(os.getenv("USE_MOCK", "false")).lower() in
    ("1", "true", "yes")], from the value of the variable. *)
Definition use_mock_of_env (v : option string) : bool :=
  let s := py_lower match v with
                    | Some s => s
                    | None => "false"
                    end in
  (s =? "1") || (s =? "true") || (s =? "yes").

(** The values of the variable that turn mock mode on. *)
Definition mock_values : list string :=
  [ "1";
    "true"; "truE"; "trUe"; "trUE"; "tRue"; "tRuE"; "tRUe"; "tRUE";
    "True"; "TruE"; "TrUe"; "TrUE"; "TRue"; "TRuE"; "TRUe"; "TRUE";
    "yes"; "yeS"; "yEs"; "yES"; "Yes"; "YeS"; "YEs"; "YES" ].

(** ** Sessions in closed form *)

(** Lines 188-194: the prompt of a frame. *)
Definition frame_prompt (data : string) : json :=
  match json_loads data with
  | Ret (JDict d) => dict_get d "text" (JStr EmptyString)
  | _ => JStr data
  end.

(** Whether the adapter reaches the remote service. *)
Definition live : bool := key_present && negb USE_MOCK.

(** The answer on the paths without a call. *)
Definition canned_answer : json :=
  if negb key_present then
    answer (JStr no_key_explanation) (JStr no_key_speech)
  else
    answer (JStr mock_explanation) (JStr mock_speech).

(** The replies of a session that reaches the service, to the frames
    [datas], the first of which meets call number [n]. *)
Fixpoint live_replies (websocket : WebSocket) (n : nat) (datas : list string)
  : list (WebSocket * json) :=
  match datas with
  | [] => []
  | data :: datas' =>
      reply_frame websocket data
        (live_answer (upstream n (sync_call (frame_prompt data))))
      :: live_replies websocket (S n) datas'
  end.

(* ================================================================ *)
(** * Properties *)
(* ================================================================ *)

(** ** Substrings *)

Lemma starts_with_app (p s : string) : starts_with p (p ++ s) = true.
Proof.
  induction p as [|a p IH]; simpl; [reflexivity|].
  now rewrite Ascii.eqb_refl, IH.
Qed.

Lemma starts_with_split (p s : string) :
  starts_with p s = true -> exists post, s = p ++ post.
Proof.
  revert s; induction p as [|a p IH]; intros s H; simpl in *.
  - now exists s.
  - destruct s as [|b s]; [discriminate|].
    apply andb_true_iff in H as [Hab Hp].
    apply Ascii.eqb_eq in Hab; subst b.
    destruct (IH _ Hp) as [post ->]. now exists post.
Qed.

Lemma py_in_starts_with (sub s : string) :
  starts_with sub s = true -> py_in sub s = true.
Proof. intros H. destruct s; simpl; now rewrite H. Qed.

Lemma py_in_app (pre sub post : string) :
  py_in sub (pre ++ sub ++ post) = true.
Proof.
  induction pre as [|a pre IH]; simpl.
  - apply py_in_starts_with, starts_with_app.
  - rewrite IH. apply orb_true_r.
Qed.

Lemma py_in_suffix (pre s : string) : py_in s (pre ++ s) = true.
Proof.
  induction pre as [|a pre IH]; simpl.
  - apply py_in_starts_with. clear. induction s as [|a s IH]; simpl;
      [reflexivity | now rewrite Ascii.eqb_refl].
  - rewrite IH. apply orb_true_r.
Qed.

Lemma py_in_split (sub s : string) :
  py_in sub s = true -> exists pre post, s = pre ++ sub ++ post.
Proof.
  induction s as [|a s IH]; simpl; intros H.
  - rewrite orb_false_r in H.
    destruct (starts_with_split _ _ H) as [post ->].
    now exists EmptyString, post.
  - apply orb_true_iff in H as [H|H].
    + destruct (starts_with_split _ _ H) as [post ->].
      now exists EmptyString, post.
    + destruct (IH H) as (pre & post & ->).
      now exists (String a pre), post.
Qed.

Lemma append_assoc (a b c : string) : (a ++ b) ++ c = a ++ b ++ c.
Proof. induction a as [|x a IH]; simpl; [reflexivity | now rewrite IH]. Qed.

(** A text with ["insufficient_quota"] in it has ["quota"] in it. *)
Lemma insufficient_quota_quota (s : string) :
  py_in "insufficient_quota" s = true -> py_in "quota" s = true.
Proof.
  intros H. destruct (py_in_split _ _ H) as (pre & post & ->).
  change ("insufficient_quota" ++ post)
    with ("insufficient_" ++ "quota" ++ post).
  rewrite <- append_assoc. apply py_in_app.
Qed.

(** ** The adapter *)

Lemma extract_content_total (resp : reply) :
  exists content, extract_content resp = Ret content.
Proof.
  unfold extract_content, rescue.
  destruct (item_message_content resp); [eauto|].
  destruct (attr_message_content resp); [eauto|].
  destruct (item_text resp); eauto.
Qed.

Lemma select_fields_dict (d : list (string * json)) (content : json) :
  select_fields (JDict d) content = Ret (fields_by_truth d content).
Proof.
  unfold select_fields, fields_by_truth, first_truthy, py_or; simpl.
  destruct (truthy (dict_get d "explanation" JNull)); simpl;
    [|destruct (truthy (dict_get d "explain" JNull)); simpl];
    (destruct (truthy (dict_get d "speech" JNull)); simpl;
     [|destruct (truthy (dict_get d "speak" JNull)); simpl]);
    reflexivity.
Qed.

Lemma normalize_eq (content : json) :
  normalize content =
    Ret match py_json_loads content with
        | Ret (JDict d) => fields_by_truth d content
        | _ => answer content content
        end.
Proof.
  unfold normalize.
  destruct (py_json_loads content) as [parsed|e]; simpl; [|reflexivity].
  destruct parsed as [| | | | | |d];
    try (unfold select_fields; simpl; reflexivity).
  now rewrite select_fields_dict.
Qed.

Lemma first_truthy_from (a b c content : json) :
  field_from content c -> field_from content (first_truthy a b c).
Proof.
  unfold first_truthy, field_from. intros Hc.
  destruct (truthy a) eqn:Ha; [now right|].
  destruct (truthy b) eqn:Hb; [now right|exact Hc].
Qed.

Lemma normalize_fields (content : json) :
  exists e s, normalize content = Ret (answer e s)
              /\ field_from content e /\ field_from content s.
Proof.
  rewrite normalize_eq.
  assert (Hraw : exists e s, Ret (answer content content) = Ret (answer e s)
                             /\ field_from content e /\ field_from content s)
    by (exists content, content; repeat split; now left).
  destruct (py_json_loads content) as [parsed|e]; [|exact Hraw].
  destruct parsed as [| | | | | |d]; try exact Hraw.
  unfold fields_by_truth. eexists _, _. split; [reflexivity|].
  assert (He : field_from content
                 (first_truthy (dict_get d "explanation" JNull)
                               (dict_get d "explain" JNull) content))
    by (apply first_truthy_from; now left).
  split; [exact He|]. now apply first_truthy_from.
Qed.

Lemma failure_answer_strings (e : exc) :
  exists x s, failure_answer e = answer (JStr x) (JStr s).
Proof.
  unfold failure_answer.
  destruct (py_in "insufficient_quota" (exc_str e) || py_in "quota" (exc_str e)
            || py_in "429" (exc_str e)); eauto.
Qed.

(** The adapter always returns, and what. *)
Lemma call_openai_chat_eq (prompt : json) (w : world) :
  call_openai_chat prompt w =
    if negb key_present then
      (Ret (answer (JStr no_key_explanation) (JStr no_key_speech)),
       push_adapter_call prompt w)
    else if USE_MOCK then
      (Ret (answer (JStr mock_explanation) (JStr mock_speech)),
       push_adapter_call prompt w)
    else
      (Ret (live_answer (upstream (List.length (api_calls w))
                                  (sync_call prompt))),
       push_api_call (sync_call prompt) (push_adapter_call prompt w)).
Proof.
  unfold call_openai_chat; simpl. unfold modify.
  destruct (negb key_present); [reflexivity|].
  destruct USE_MOCK; [reflexivity|].
  unfold try_except, to_thread, live_answer, lift; simpl.
  destruct (upstream _ _) as [resp|e]; [|reflexivity].
  destruct (extract_content resp) as [content|e]; simpl; [|reflexivity].
  now destruct (normalize content).
Qed.

Lemma call_openai_chat_live (prompt : json) (w : world) :
  key_present = true -> USE_MOCK = false ->
  fst (call_openai_chat prompt w) =
    Ret (live_answer (upstream (List.length (api_calls w))
                               (sync_call prompt))).
Proof.
  intros Hk Hm. now rewrite call_openai_chat_eq, Hk, Hm.
Qed.

Lemma live_answer_text (resp : reply) (text : string) :
  extract_content resp = Ret (JStr text) ->
  live_answer (Returns resp) =
    match json_loads text with
    | Ret (JDict d) => fields_by_truth d (JStr text)
    | _ => answer (JStr text) (JStr text)
    end.
Proof.
  intros Hx. unfold live_answer. rewrite Hx; simpl.
  now rewrite normalize_eq.
Qed.

Lemma call_openai_chat_returns (prompt : json) (w : world) :
  exists e s w',
    call_openai_chat prompt w = (Ret (answer e s), w')
    /\ active_connections w' = active_connections w
    /\ outbox w' = outbox w
    /\ adapter_calls w' = (adapter_calls w ++ [prompt])%list.
Proof.
  rewrite call_openai_chat_eq.
  destruct (negb key_present); [eexists _, _, _; repeat split|].
  destruct USE_MOCK; [eexists _, _, _; repeat split|].
  unfold live_answer.
  destruct (upstream _ _) as [resp|ex].
  - destruct (extract_content_total resp) as [content ->]; simpl.
    destruct (normalize_fields content) as (e & s & -> & _).
    eexists _, _, _; repeat split.
  - destruct (failure_answer_strings ex) as (x & s & ->).
    eexists _, _, _; repeat split.
Qed.




(** C2 (as amended).  With a key configured and mock mode on, the
    adapter returns the fixed mock pair for every prompt, whatever the
    model, the client and the remote service are, and issues no call. *)
Theorem mock_mode_answer (prompt : json) (w : world) :
  key_present = true -> USE_MOCK = true ->
  call_openai_chat prompt w =
    (Ret (answer (JStr mock_explanation) (JStr mock_speech)),
     push_adapter_call prompt w)
  /\ api_calls (snd (call_openai_chat prompt w)) = api_calls w.
Proof.
  intros Hk Hm. rewrite call_openai_chat_eq, Hk, Hm. now split.
Qed.

(** C3.  Without a key (unset or empty) the adapter returns the fixed
    instructional pair for every prompt, and issues no call. *)
Theorem missing_key_answer (prompt : json) (w : world) :
  key_present = false ->
  call_openai_chat prompt w =
    (Ret (answer (JStr no_key_explanation) (JStr no_key_speech)),
     push_adapter_call prompt w)
  /\ api_calls (snd (call_openai_chat prompt w)) = api_calls w.
Proof.
  intros Hk. rewrite call_openai_chat_eq, Hk. now split.
Qed.

(** C4 (as amended).  For non-empty strings [E] and [S]: when the text
    extracted from the reply is the JSON object with 'explanation' [E]
    and 'speech' [S], the adapter returns exactly these two. *)
Theorem round_trip (prompt : json) (w : world) (resp : reply)
        (text E S : string) :
  key_present = true -> USE_MOCK = false ->
  upstream (List.length (api_calls w)) (sync_call prompt) = Returns resp ->
  extract_content resp = Ret (JStr text) ->
  json_loads text = Ret (JDict [("explanation", JStr E); ("speech", JStr S)]) ->
  E <> EmptyString -> S <> EmptyString ->
  fst (call_openai_chat prompt w) = Ret (answer (JStr E) (JStr S)).
Proof.
  intros Hk Hm Hup Hx Hj HE HS.
  rewrite call_openai_chat_live, Hup, (live_answer_text _ _ Hx), Hj
    by assumption.
  unfold fields_by_truth, first_truthy, dict_get; simpl.
  apply String.eqb_neq in HE, HS. now rewrite HE, HS.
Qed.

(** C5 (as amended).  When the extracted text parses as a JSON object,
    'explanation' is the first truthy value among the keys
    'explanation' and 'explain', else the extracted text, and 'speech'
    is the first truthy value among 'speech' and 'speak', else the
    explanation chosen; so the object with 'explain' [E] and 'speak'
    [S], both non-empty, gives [E] and [S].  When the text does not
    parse, both fields are the text. *)
Theorem normalization (prompt : json) (w : world) (resp : reply)
        (text : string) :
  key_present = true -> USE_MOCK = false ->
  upstream (List.length (api_calls w)) (sync_call prompt) = Returns resp ->
  extract_content resp = Ret (JStr text) ->
  (forall d, json_loads text = Ret (JDict d) ->
     fst (call_openai_chat prompt w) =
       Ret (let explanation :=
              first_truthy (dict_get d "explanation" JNull)
                           (dict_get d "explain" JNull) (JStr text) in
            answer explanation
                   (first_truthy (dict_get d "speech" JNull)
                                 (dict_get d "speak" JNull) explanation)))
  /\ (forall E S, E <> EmptyString -> S <> EmptyString ->
        json_loads text = Ret (JDict [("explain", JStr E); ("speak", JStr S)]) ->
        fst (call_openai_chat prompt w) = Ret (answer (JStr E) (JStr S)))
  /\ (forall e, json_loads text = Raise e ->
        fst (call_openai_chat prompt w)
        = Ret (answer (JStr text) (JStr text))).
Proof.
  intros Hk Hm Hup Hx.
  rewrite call_openai_chat_live, Hup, (live_answer_text _ _ Hx)
    by assumption.
  repeat split.
  - intros d ->. reflexivity.
  - intros E S HE HS ->.
    unfold fields_by_truth, first_truthy, dict_get; simpl.
    apply String.eqb_neq in HE, HS. now rewrite HE, HS.
  - intros e ->. reflexivity.
Qed.

(** C6 (as amended).  When the call raises and the error text contains
    "quota", 'explanation' contains the error text and 'speech' is the
    fixed billing guidance, which is not the explanation; when the
    error text contains neither "quota" nor "429", 'speech' is the
    generic could-not-reach message and 'explanation' contains the
    error text. *)
Theorem upstream_failure (prompt : json) (w : world) (e : exc) :
  key_present = true -> USE_MOCK = false ->
  upstream (List.length (api_calls w)) (sync_call prompt) = Raises e ->
  (py_in "quota" (exc_str e) = true ->
     fst (call_openai_chat prompt w) =
       Ret (answer (JStr (request_failed (exc_str e))) (JStr quota_user_msg)))
  /\ (py_in "quota" (exc_str e) = false -> py_in "429" (exc_str e) = false ->
        fst (call_openai_chat prompt w) =
          Ret (answer (JStr (request_failed (exc_str e)))
                      (JStr unreachable_speech)))
  /\ py_in (exc_str e) (request_failed (exc_str e)) = true
  /\ quota_user_msg <> request_failed (exc_str e)
  /\ quota_user_msg <> unreachable_speech.
Proof.
  intros Hk Hm Hup.
  rewrite call_openai_chat_live, Hup by assumption.
  unfold live_answer, failure_answer.
  repeat split.
  - intros ->. now rewrite orb_true_r.
  - intros Hq H429.
    destruct (py_in "insufficient_quota" (exc_str e)) eqn:Hi.
    + apply insufficient_quota_quota in Hi. congruence.
    + now rewrite Hq, H429.
  - apply py_in_suffix.
  - intros H. apply (f_equal (String.get 9)) in H.
    vm_compute in H. discriminate H.
  - intros H. apply (f_equal (String.get 0)) in H.
    vm_compute in H. discriminate H.
Qed.

Lemma lookup_filter_keys (keep : string -> bool) (d : list (string * json))
      (k : string) :
  dict_lookup (filter (fun kv => keep (fst kv)) d) k =
    if keep k then dict_lookup d k else None.
Proof.
  induction d as [|[k' v] d IH]; simpl.
  - now destruct (keep k).
  - destruct (k' =? k) eqn:Hk.
    + apply String.eqb_eq in Hk; subst k'.
      destruct (keep k) eqn:Hkeep; simpl.
      * now rewrite String.eqb_refl.
      * rewrite IH; try rewrite Hkeep; reflexivity.
    + destruct (keep k'); simpl; [|exact IH].
      now rewrite Hk, IH.
Qed.

Lemma first_present_without_falsy (d : list (string * json))
      (k1 k2 : string) (c : json) :
  first_present (without_falsy d) k1 k2 c =
    first_truthy (dict_get d k1 JNull) (dict_get d k2 JNull) c.
Proof.
  unfold first_present, first_truthy, without_falsy.
  rewrite !(lookup_filter_keys (fun k => truthy (dict_get d k JNull))).
  unfold dict_get.
  destruct (dict_lookup d k1) as [v1|]; simpl.
  - destruct (truthy v1); [reflexivity|].
    destruct (dict_lookup d k2) as [v2|]; simpl; [|reflexivity].
    now destruct (truthy v2).
  - destruct (dict_lookup d k2) as [v2|]; simpl; [|reflexivity].
    now destruct (truthy v2).
Qed.

(** C10.  In the normalization a key with a falsy value counts as
    absent: the answer for a parsed object is the answer, key by key
    presence, for that object without its falsy keys.  An empty
    'explanation' therefore falls back to 'explain' and then to the
    whole extracted text, and a falsy 'speech' to 'speak' and then to
    the explanation chosen. *)
Theorem falsy_is_absent (prompt : json) (w : world) (resp : reply)
        (text : string) (d : list (string * json)) :
  key_present = true -> USE_MOCK = false ->
  upstream (List.length (api_calls w)) (sync_call prompt) = Returns resp ->
  extract_content resp = Ret (JStr text) ->
  json_loads text = Ret (JDict d) ->
  fst (call_openai_chat prompt w) =
    Ret (fields_by_presence (without_falsy d) (JStr text)).
Proof.
  intros Hk Hm Hup Hx Hj.
  rewrite call_openai_chat_live, Hup, (live_answer_text _ _ Hx), Hj
    by assumption.
  unfold fields_by_presence, fields_by_truth.
  now rewrite !first_present_without_falsy.
Qed.

(** ** The websocket handler *)

Lemma parse_frame_eq (data : string) :
  parse_frame data =
    Ret match json_loads data with
        | Ret (JDict d) =>
            (dict_get d "text" (JStr EmptyString), dict_get d "id" JNull)
        | _ => (JStr data, JNull)
        end.
Proof.
  unfold parse_frame.
  destruct (json_loads data) as [payload|e]; simpl; [|reflexivity].
  now destruct payload.
Qed.

Lemma parse_frame_id (data : string) :
  exists text, parse_frame data = Ret (text, echoed_id data).
Proof.
  rewrite parse_frame_eq. unfold echoed_id, dict_get.
  destruct (json_loads data) as [payload|e]; [|eauto].
  destruct payload; eauto.
Qed.

Lemma handle_frame_run (websocket : WebSocket) (data : string) (w : world) :
  exists text msg_id e s w1,
    parse_frame data = Ret (text, msg_id)
    /\ call_openai_chat text w = (Ret (answer e s), w1)
    /\ handle_frame websocket data w =
         (Ret tt,
          push_frame websocket
                     (JDict [("id", msg_id); ("response", answer e s)]) w1).
Proof.
  destruct (parse_frame_id data) as [text Hp].
  destruct (call_openai_chat_returns text w) as (e & s & w1 & Hc & _).
  exists text, (echoed_id data), e, s, w1. repeat split; try assumption.
  unfold handle_frame, lift, send_text, modify; simpl.
  now rewrite Hp, Hc.
Qed.

Lemma receive_loop_run (websocket : WebSocket) (inbox : list event) :
  forall w, exists results w',
    receive_loop websocket inbox w = (loop_end inbox, w')
    /\ active_connections w' = active_connections w
    /\ List.length results = List.length (frames_read inbox)
    /\ Forall (fun r => exists e s, r = answer e s) results
    /\ outbox w' =
         (outbox w
          ++ map (fun p => reply_frame websocket (fst p) (snd p))
                 (combine (frames_read inbox) results))%list.
Proof.
  induction inbox as [|ev inbox IH]; intros w.
  - exists [], w. simpl. rewrite app_nil_r. repeat split. constructor.
  - destruct ev as [data| |ex].
    + destruct (handle_frame_run websocket data w)
        as (text & msg_id & e & s & w1 & Hp & Hc & Hh).
      destruct (parse_frame_id data) as [text' Hp'].
      rewrite Hp in Hp'. injection Hp' as _ ->.
      destruct (call_openai_chat_returns text w)
        as (e' & s' & w1' & Hc' & Hreg & Hout & _).
      rewrite Hc in Hc'. injection Hc' as <- <- <-.
      destruct (IH (push_frame websocket
                      (JDict [("id", echoed_id data);
                              ("response", answer e s)]) w1))
        as (results & w' & Hl & Hreg' & Hlen & Hall & Hout').
      exists (answer e s :: results), w'.
      simpl. rewrite Hh. simpl in *. rewrite Hl.
      repeat split.
      * now rewrite Hreg'.
      * now rewrite Hlen.
      * constructor; eauto.
      * rewrite Hout', Hout, <- app_assoc. reflexivity.
    + exists [], w. simpl. rewrite app_nil_r. repeat split. constructor.
    + exists [], w. simpl. rewrite app_nil_r. repeat split. constructor.
Qed.

Lemma py_contains_app (ws : WebSocket) (l : list WebSocket) :
  py_contains ws (l ++ [ws]) = true.
Proof.
  unfold py_contains. rewrite existsb_app; simpl.
  now rewrite Nat.eqb_refl, orb_true_r.
Qed.

Lemma py_remove_app (ws : WebSocket) (l : list WebSocket) :
  py_contains ws l = false -> py_remove ws (l ++ [ws]) = l.
Proof.
  unfold py_contains. induction l as [|x l IH]; simpl; intros H.
  - now rewrite Nat.eqb_refl.
  - apply orb_false_iff in H as [Hx Hl]. now rewrite Hx, IH.
Qed.

Lemma loop_end_disconnect (frames : list string) (rest : list event) :
  loop_end (map TextFrame frames ++ ClientDisconnect :: rest)
  = Raise (Exc WebSocketDisconnect EmptyString).
Proof. induction frames as [|f frames IH]; simpl; [reflexivity|exact IH]. Qed.

(** C7.  One turn of the loop always invokes the adapter once and
    writes one document.  For a frame that does not parse as JSON the
    prompt is the whole raw frame and the id written is null; for a
    frame that parses as a JSON object the prompt is the value of its
    'text' key, the empty string when there is none. *)
Theorem handle_frame_prompt (websocket : WebSocket) (data : string)
        (w : world) :
  exists result w',
    handle_frame websocket data w = (Ret tt, w')
    /\ match json_loads data with
       | Raise _ =>
           adapter_calls w' = (adapter_calls w ++ [JStr data])%list
           /\ outbox w' =
                (outbox w
                 ++ [(websocket,
                      JDict [("id", JNull); ("response", result)])])%list
       | Ret (JDict d) =>
           adapter_calls w' =
             (adapter_calls w
              ++ [match dict_lookup d "text" with
                  | Some v => v
                  | None => JStr EmptyString
                  end])%list
       | Ret _ =>
           adapter_calls w' = (adapter_calls w ++ [JStr data])%list
       end.
Proof.
  destruct (handle_frame_run websocket data w)
    as (text & msg_id & e & s & w1 & Hp & Hc & Hh).
  destruct (call_openai_chat_returns text w)
    as (e' & s' & w1' & Hc' & _ & Hout & Hadp).
  rewrite Hc in Hc'. injection Hc' as <- <- <-.
  exists (answer e s), (push_frame websocket
                          (JDict [("id", msg_id); ("response", answer e s)])
                          w1).
  split; [exact Hh|].
  rewrite parse_frame_eq in Hp. unfold dict_get in Hp.
  destruct (json_loads data) as [payload|ex].
  - destruct payload; injection Hp as <- <-; simpl; exact Hadp.
  - injection Hp as <- <-; simpl. now rewrite Hadp, Hout.
Qed.

(** C8.  The handler writes exactly one document for each frame it
    reads, in order, to the connection the frame came from; its 'id' is
    the 'id' of the frame when the frame is a JSON object that has one
    and null otherwise, and its 'response' is an answer of the
    adapter. *)
Theorem one_reply_per_frame (websocket : WebSocket) (inbox : list event)
        (w : world) :
  exists results,
    List.length results = List.length (frames_read inbox)
    /\ Forall (fun r => exists e s, r = answer e s) results
    /\ outbox (snd (websocket_endpoint websocket inbox w)) =
         (outbox w
          ++ map (fun p => reply_frame websocket (fst p) (snd p))
                 (combine (frames_read inbox) results))%list.
Proof.
  unfold websocket_endpoint, connect, modify, try_except_class; simpl.
  destruct (receive_loop_run websocket inbox
              (set_connections (active_connections w ++ [websocket]) w))
    as (results & w' & Hl & _ & Hlen & Hall & Hout).
  exists results. repeat split; try assumption.
  rewrite Hl. simpl in Hout.
  destruct (loop_end inbox) as [u|e]; simpl; [exact Hout|].
  destruct (exc_class_eqb (exc_cls e) WebSocketDisconnect); simpl;
    [|exact Hout].
  unfold disconnect, modify.
  now destruct (py_contains websocket (active_connections w')).
Qed.

Lemma py_contains_count (ws : WebSocket) (l : list WebSocket) :
  py_contains ws l = false <-> count_occ Nat.eq_dec l ws = 0.
Proof.
  unfold py_contains. induction l as [|x l IH]; simpl; [tauto|].
  destruct (Nat.eq_dec x ws) as [->|Hne].
  - rewrite Nat.eqb_refl; simpl. split; discriminate.
  - assert (Hb : Nat.eqb ws x = false)
      by (apply Nat.eqb_neq; congruence).
    rewrite Hb; simpl. exact IH.
Qed.

Lemma py_remove_count (ws x : WebSocket) (l : list WebSocket) :
  count_occ Nat.eq_dec (py_remove x l) ws <= count_occ Nat.eq_dec l ws.
Proof.
  induction l as [|y l IH]; simpl; [lia|].
  destruct (Nat.eqb x y); simpl; destruct (Nat.eq_dec y ws); lia.
Qed.

Lemma py_remove_count_self (ws : WebSocket) (l : list WebSocket) :
  py_contains ws l = true ->
  S (count_occ Nat.eq_dec (py_remove ws l) ws) = count_occ Nat.eq_dec l ws.
Proof.
  unfold py_contains. induction l as [|y l IH]; simpl; [discriminate|].
  destruct (Nat.eqb ws y) eqn:E; simpl.
  - apply Nat.eqb_eq in E; subst y. intros _.
    now destruct (Nat.eq_dec ws ws).
  - intros H. apply Nat.eqb_neq in E.
    destruct (Nat.eq_dec y ws); [congruence|]. now apply IH.
Qed.

(** Whatever the other sessions do to the registry in between: once a
    connection that was registered at most once is disconnected, it is
    absent. *)
Lemma registry_interleaving (ws : WebSocket) (ops : list registry_op) :
  forall w,
    count_occ Nat.eq_dec (active_connections w) ws + connects ws ops <= 1 ->
    exists w',
      run_registry (ops ++ [Disconnects ws]) w = (Ret tt, w')
      /\ py_contains ws (active_connections w') = false.
Proof.
  induction ops as [|[x|x] ops IH]; intros w Hcount; simpl in *.
  - unfold disconnect, modify.
    destruct (py_contains ws (active_connections w)) eqn:Hin; simpl.
    + eexists; split; [reflexivity|]. simpl.
      apply py_contains_count.
      pose proof (py_remove_count_self _ _ Hin).
      unfold WebSocket in *. lia.
    + eexists; split; [reflexivity|]. exact Hin.
  - unfold connect, modify; simpl.
    apply IH; simpl. rewrite count_occ_app; simpl.
    destruct (Nat.eq_dec x ws) as [->|Hne].
    + rewrite Nat.eqb_refl in Hcount. simpl in Hcount.
      unfold WebSocket in *. lia.
    + destruct (Nat.eqb ws x); simpl in Hcount; unfold WebSocket in *; lia.
  - unfold disconnect at 1. unfold modify.
    destruct (py_contains x (active_connections w)); simpl.
    + apply IH; simpl.
      pose proof (py_remove_count ws x (active_connections w)).
      unfold WebSocket in *. lia.
    + apply IH. exact Hcount.
Qed.

(** C9.  A session of a connection that was not registered before, and
    that ends by the client's disconnect, returns with the connection
    absent from the registry, which is as it was before the session;
    and [disconnect] of a connection that is not registered changes
    nothing. *)
Theorem disconnect_unregisters (websocket : WebSocket)
        (frames : list string) (rest : list event) (w : world) :
  py_contains websocket (active_connections w) = false ->
  let run :=
    websocket_endpoint websocket
      (map TextFrame frames ++ ClientDisconnect :: rest) w in
  fst run = Ret tt
  /\ py_contains websocket (active_connections (snd run)) = false
  /\ active_connections (snd run) = active_connections w
  /\ disconnect websocket w = (Ret tt, w).
Proof.
  intros Hfresh run. subst run.
  unfold websocket_endpoint, connect, modify, try_except_class; simpl.
  destruct (receive_loop_run websocket
              (map TextFrame frames ++ ClientDisconnect :: rest)
              (set_connections (active_connections w ++ [websocket]) w))
    as (results & w' & Hl & Hreg & _).
  rewrite Hl, loop_end_disconnect; simpl in *.
  unfold disconnect, modify.
  rewrite Hreg, py_contains_app, py_remove_app by assumption; simpl.
  rewrite Hfresh. repeat split; assumption.
Qed.

(** ** Further properties of the adapter *)

(** X1.  A text that parses as JSON but not as an object (a number, a
    string, a list, null, true or false) has no [get]: the attribute
    error lands in the same handler as a parse error, and both fields are
    the raw text. *)
Theorem non_object_json (prompt : json) (w : world) (resp : reply)
        (text : string) (v : json) :
  key_present = true -> USE_MOCK = false ->
  upstream (List.length (api_calls w)) (sync_call prompt) = Returns resp ->
  extract_content resp = Ret (JStr text) ->
  json_loads text = Ret v ->
  (forall d, v <> JDict d) ->
  fst (call_openai_chat prompt w) = Ret (answer (JStr text) (JStr text)).
Proof.
  intros Hk Hm Hup Hx Hj Hv.
  rewrite call_openai_chat_live, Hup, (live_answer_text _ _ Hx), Hj
    by assumption.
  destruct v as [| | | | | |d]; try reflexivity.
  now destruct (Hv d).
Qed.

(** X2.  A content that is not a [str] (None, a number, a list, a dict)
    is never parsed: [json.loads] refuses it, and both fields are that
    very content. *)
Theorem non_string_content (prompt : json) (w : world) (resp : reply)
        (content : json) :
  key_present = true -> USE_MOCK = false ->
  upstream (List.length (api_calls w)) (sync_call prompt) = Returns resp ->
  extract_content resp = Ret content ->
  is_str content = false ->
  fst (call_openai_chat prompt w) = Ret (answer content content).
Proof.
  intros Hk Hm Hup Hx Hs.
  rewrite call_openai_chat_live, Hup by assumption.
  unfold live_answer. rewrite Hx; simpl. rewrite normalize_eq.
  destruct content; try reflexivity. discriminate Hs.
Qed.

Lemma truthy_request_failed (errmsg : string) :
  truthy (JStr (request_failed errmsg)) = true.
Proof. reflexivity. Qed.

Lemma field_from_truthy (content v : json) :
  truthy content = true -> field_from content v -> truthy v = true.
Proof. intros Hc [->|Hv]; assumption. Qed.

(** X3.  The adapter answers with an empty (falsy) field only when the
    remote service itself returned an empty content: on every other path
    both fields are truthy. *)
Theorem nonempty_fields (prompt : json) (w : world) :
  exists e s w',
    call_openai_chat prompt w = (Ret (answer e s), w')
    /\ ((truthy e = true /\ truthy s = true)
        \/ exists resp content,
             key_present = true /\ USE_MOCK = false
             /\ upstream (List.length (api_calls w)) (sync_call prompt)
                = Returns resp
             /\ extract_content resp = Ret content
             /\ truthy content = false).
Proof.
  rewrite call_openai_chat_eq.
  destruct key_present eqn:Hk; simpl;
    [|eexists _, _, _; split; [reflexivity|left; split; reflexivity]].
  destruct USE_MOCK eqn:Hm;
    [eexists _, _, _; split; [reflexivity|left; split; reflexivity]|].
  unfold live_answer.
  destruct (upstream _ _) as [resp|ex] eqn:Hup.
  - destruct (extract_content_total resp) as [content Hx].
    rewrite Hx; simpl.
    destruct (normalize_fields content) as (e & s & -> & He & Hs).
    eexists _, _, _; split; [reflexivity|].
    destruct (truthy content) eqn:Hc.
    + left. split; eapply field_from_truthy; eassumption.
    + right. exists resp, content. repeat split; assumption.
  - unfold failure_answer.
    destruct (py_in "insufficient_quota" (exc_str ex)
              || py_in "quota" (exc_str ex) || py_in "429" (exc_str ex));
      eexists _, _, _; (split; [reflexivity|]); left;
      (split; [apply truthy_request_failed | reflexivity]).
Qed.

(** X4.  When the call raises, the explanation is the error text after
    the fixed prefix, and the speech is the billing guidance exactly when
    the error text contains "quota" or "429" (the test for
    "insufficient_quota" never decides), the generic message otherwise. *)
Theorem failure_speech (prompt : json) (w : world) (e : exc) :
  key_present = true -> USE_MOCK = false ->
  upstream (List.length (api_calls w)) (sync_call prompt) = Raises e ->
  fst (call_openai_chat prompt w) =
    Ret (answer (JStr (request_failed (exc_str e)))
                (JStr (if py_in "quota" (exc_str e) || py_in "429" (exc_str e)
                       then quota_user_msg else unreachable_speech))).
Proof.
  intros Hk Hm Hup.
  rewrite call_openai_chat_live, Hup by assumption.
  unfold live_answer, failure_answer.
  destruct (py_in "insufficient_quota" (exc_str e)) eqn:Hi.
  - apply insufficient_quota_quota in Hi. now rewrite Hi.
  - simpl. now destruct (py_in "quota" (exc_str e) || py_in "429" (exc_str e)).
Qed.

(** ** Further properties of the sessions *)

Lemma parse_frame_fields (data : string) :
  parse_frame data = Ret (frame_prompt data, echoed_id data).
Proof.
  rewrite parse_frame_eq. unfold frame_prompt, echoed_id, dict_get.
  destruct (json_loads data) as [payload|e]; [|reflexivity].
  now destruct payload.
Qed.

Lemma handle_frame_eq (websocket : WebSocket) (data : string) (w : world) :
  handle_frame websocket data w =
    let text := frame_prompt data in
    if live then
      (Ret tt,
       push_frame websocket
         (snd (reply_frame websocket data
                 (live_answer (upstream (List.length (api_calls w))
                                        (sync_call text)))))
         (push_api_call (sync_call text) (push_adapter_call text w)))
    else
      (Ret tt,
       push_frame websocket
         (snd (reply_frame websocket data canned_answer))
         (push_adapter_call text w)).
Proof.
  unfold handle_frame, lift, send_text, modify, live, canned_answer; simpl.
  rewrite parse_frame_fields, call_openai_chat_eq.
  destruct key_present; simpl; [|reflexivity].
  now destruct USE_MOCK.
Qed.

Lemma receive_loop_calls (websocket : WebSocket) (inbox : list event) :
  forall w,
    api_calls (snd (receive_loop websocket inbox w)) =
      (api_calls w
       ++ if live then
            map (fun data => sync_call (frame_prompt data)) (frames_read inbox)
          else [])%list.
Proof.
  induction inbox as [|ev inbox IH]; intros w.
  - simpl. destruct live; now rewrite app_nil_r.
  - destruct ev as [data| |ex]; simpl.
    + rewrite handle_frame_eq. destruct live eqn:Hl; simpl.
      * rewrite IH; simpl. now rewrite <- app_assoc.
      * rewrite IH; simpl. reflexivity.
    + destruct live; now rewrite app_nil_r.
    + destruct live; now rewrite app_nil_r.
Qed.

Lemma receive_loop_live (websocket : WebSocket) (inbox : list event) :
  live = true ->
  forall w,
    outbox (snd (receive_loop websocket inbox w)) =
      (outbox w
       ++ live_replies websocket (List.length (api_calls w))
                       (frames_read inbox))%list.
Proof.
  intros Hl. induction inbox as [|ev inbox IH]; intros w.
  - simpl. now rewrite app_nil_r.
  - destruct ev as [data| |ex]; simpl; try now rewrite app_nil_r.
    rewrite handle_frame_eq, Hl; simpl.
    rewrite IH; simpl. rewrite length_app, Nat.add_1_r; simpl.
    now rewrite <- app_assoc.
Qed.

Lemma receive_loop_canned (websocket : WebSocket) (inbox : list event) :
  live = false ->
  forall w,
    outbox (snd (receive_loop websocket inbox w)) =
      (outbox w
       ++ map (fun data => reply_frame websocket data canned_answer)
              (frames_read inbox))%list.
Proof.
  intros Hl. induction inbox as [|ev inbox IH]; intros w.
  - simpl. now rewrite app_nil_r.
  - destruct ev as [data| |ex]; simpl; try now rewrite app_nil_r.
    rewrite handle_frame_eq, Hl; simpl.
    rewrite IH; simpl. now rewrite <- app_assoc.
Qed.

Lemma disconnect_eq (websocket : WebSocket) (w : world) :
  disconnect websocket w =
    (Ret tt,
     if py_contains websocket (active_connections w) then
       set_connections (py_remove websocket (active_connections w)) w
     else w).
Proof.
  unfold disconnect, modify.
  now destruct (py_contains websocket (active_connections w)).
Qed.

(** A session in closed form: the loop runs on the world with the
    connection registered, and only a [WebSocketDisconnect] is followed
    by [disconnect]. *)
Lemma websocket_endpoint_eq (websocket : WebSocket) (inbox : list event)
      (w : world) :
  let w1 :=
    snd (receive_loop websocket inbox
           (set_connections (active_connections w ++ [websocket]) w)) in
  active_connections w1 = (active_connections w ++ [websocket])%list
  /\ websocket_endpoint websocket inbox w =
       match loop_end inbox with
       | Ret u => (Ret u, w1)
       | Raise e =>
           if exc_class_eqb (exc_cls e) WebSocketDisconnect then
             (Ret tt,
              set_connections
                (py_remove websocket (active_connections w ++ [websocket]))
                w1)
           else (Raise e, w1)
       end.
Proof.
  intros w1. subst w1.
  unfold websocket_endpoint, connect, modify, try_except_class; simpl.
  destruct (receive_loop_run websocket inbox
              (set_connections (active_connections w ++ [websocket]) w))
    as (results & w' & Hl & Hreg & _).
  rewrite Hl; simpl in *. split; [exact Hreg|].
  destruct (loop_end inbox) as [u|e]; [reflexivity|].
  destruct (exc_class_eqb (exc_cls e) WebSocketDisconnect); [|reflexivity].
  now rewrite disconnect_eq, Hreg, py_contains_app.
Qed.

Lemma websocket_endpoint_logs (websocket : WebSocket) (inbox : list event)
      (w : world) :
  let w1 :=
    snd (receive_loop websocket inbox
           (set_connections (active_connections w ++ [websocket]) w)) in
  api_calls (snd (websocket_endpoint websocket inbox w)) = api_calls w1
  /\ outbox (snd (websocket_endpoint websocket inbox w)) = outbox w1.
Proof.
  intros w1.
  destruct (websocket_endpoint_eq websocket inbox w) as [_ ->].
  fold w1.
  destruct (loop_end inbox) as [u|e]; [now split|].
  destruct (exc_class_eqb (exc_cls e) WebSocketDisconnect); now split.
Qed.

(** X5.  A session issues one call per frame it reads, in the order of
    the frames, each with the model of the configuration, the system
    prompt followed by the prompt of the frame, temperature 0.2 and at
    most 800 tokens; whatever a call does, it is not repeated.  Without
    a key or in mock mode the session issues no call. *)
Theorem session_calls (websocket : WebSocket) (inbox : list event)
        (w : world) :
  api_calls (snd (websocket_endpoint websocket inbox w)) =
    (api_calls w
     ++ if key_present && negb USE_MOCK then
          map (fun data =>
                 Request (negb client) OPENAI_MODEL
                   (JList [JDict [("role", JStr "system");
                                  ("content", JStr system_prompt)];
                           JDict [("role", JStr "user");
                                  ("content", frame_prompt data)]])
                   (FDec false 2 (-1)) 800)
              (frames_read inbox)
        else [])%list.
Proof.
  destruct (websocket_endpoint_logs websocket inbox w) as [-> _].
  rewrite receive_loop_calls; simpl. fold live.
  destruct live; [|reflexivity].
  f_equal. apply map_ext. intros data.
  unfold sync_call, messages. now destruct client.
Qed.

(** X6.  In a session that reaches the service, the reply to the k-th
    frame carries the frame's id and the answer made from the outcome of
    the k-th call of the session: replies follow the frames one by one,
    none is answered from another frame's call. *)
Theorem live_session_replies (websocket : WebSocket) (inbox : list event)
        (w : world) :
  key_present = true -> USE_MOCK = false ->
  outbox (snd (websocket_endpoint websocket inbox w)) =
    (outbox w
     ++ live_replies websocket (List.length (api_calls w))
                     (frames_read inbox))%list.
Proof.
  intros Hk Hm.
  destruct (websocket_endpoint_logs websocket inbox w) as [_ ->].
  rewrite receive_loop_live; [reflexivity|].
  unfold live. now rewrite Hk, Hm.
Qed.

(** X7.  Without a key, or with a key in mock mode, every frame of a
    session is answered with the same fixed pair (the missing-key pair
    when there is no key, the mock pair otherwise) under the frame's
    id. *)
Theorem canned_session_replies (websocket : WebSocket) (inbox : list event)
        (w : world) :
  key_present = false \/ USE_MOCK = true ->
  outbox (snd (websocket_endpoint websocket inbox w)) =
    (outbox w
     ++ map (fun data =>
               (websocket,
                JDict [("id", echoed_id data);
                       ("response",
                        if key_present then
                          answer (JStr mock_explanation) (JStr mock_speech)
                        else
                          answer (JStr no_key_explanation)
                                 (JStr no_key_speech))]))
            (frames_read inbox))%list.
Proof.
  intros H.
  destruct (websocket_endpoint_logs websocket inbox w) as [_ ->].
  rewrite receive_loop_canned.
  - simpl. f_equal. apply map_ext. intros data.
    unfold reply_frame, canned_answer. now destruct key_present.
  - unfold live. destruct H as [->| ->]; [reflexivity|apply andb_false_r].
Qed.

(** ** Further properties of the registry *)

Lemma py_remove_first (ws : WebSocket) (l : list WebSocket) :
  py_contains ws l = true ->
  exists l1 l2,
    l = (l1 ++ ws :: l2)%list /\ ~ In ws l1 /\ py_remove ws l = (l1 ++ l2)%list.
Proof.
  unfold py_contains. induction l as [|x l IH]; simpl; [discriminate|].
  destruct (Nat.eqb ws x) eqn:E; simpl.
  - apply Nat.eqb_eq in E; subst x. intros _.
    exists [], l. repeat split. intros [].
  - intros H. destruct (IH H) as (l1 & l2 & -> & Hnot & ->).
    exists (x :: l1), l2. repeat split.
    apply Nat.eqb_neq in E. intros [Hx|Hin]; [congruence|contradiction].
Qed.

(** X8.  [disconnect] never raises and touches nothing but the registry.
    It takes out the first occurrence of the connection and leaves every
    other entry where it was, in order; when the connection is not
    registered the world stays as it is. *)
Theorem disconnect_effect (websocket : WebSocket) (w : world) :
  exists w',
    disconnect websocket w = (Ret tt, w')
    /\ api_calls w' = api_calls w
    /\ adapter_calls w' = adapter_calls w
    /\ outbox w' = outbox w
    /\ ((py_contains websocket (active_connections w) = false /\ w' = w)
        \/ exists l1 l2,
             active_connections w = (l1 ++ websocket :: l2)%list
             /\ ~ In websocket l1
             /\ active_connections w' = (l1 ++ l2)%list).
Proof.
  rewrite disconnect_eq.
  destruct (py_contains websocket (active_connections w)) eqn:Hin.
  - eexists; split; [reflexivity|]. repeat split.
    right. destruct (py_remove_first _ _ Hin) as (l1 & l2 & H1 & H2 & H3).
    exists l1, l2. repeat split; assumption.
  - eexists; split; [reflexivity|]. repeat split. now left.
Qed.

Lemma py_remove_count_other (ws x : WebSocket) (l : list WebSocket) :
  x <> ws ->
  count_occ Nat.eq_dec (py_remove ws l) x = count_occ Nat.eq_dec l x.
Proof.
  intros Hne. induction l as [|y l IH]; simpl; [reflexivity|].
  destruct (Nat.eqb ws y) eqn:E; simpl.
  - apply Nat.eqb_eq in E; subst y.
    destruct (Nat.eq_dec ws x); [congruence|reflexivity].
  - destruct (Nat.eq_dec y x); now rewrite IH.
Qed.

(** X9.  A session that ends by the client's disconnect leaves the
    registry with the entries it had: every connection, the session's own
    included, is registered as many times after the session as before
    it.  (The manager does not look for duplicates; a connection that was
    already registered stays registered.) *)
Theorem session_keeps_multiplicity (websocket x : WebSocket)
        (frames : list string) (rest : list event) (w : world) :
  count_occ Nat.eq_dec
    (active_connections
       (snd (websocket_endpoint websocket
               (map TextFrame frames ++ ClientDisconnect :: rest) w))) x
  = count_occ Nat.eq_dec (active_connections w) x.
Proof.
  destruct (websocket_endpoint_eq websocket
              (map TextFrame frames ++ ClientDisconnect :: rest) w)
    as [_ ->].
  rewrite loop_end_disconnect; simpl.
  destruct (Nat.eq_dec x websocket) as [->|Hne].
  - pose proof (py_remove_count_self websocket
                  (active_connections w ++ [websocket])
                  (py_contains_app _ _)) as H.
    rewrite count_occ_app in H; simpl in H.
    destruct (Nat.eq_dec websocket websocket); [|congruence].
    unfold WebSocket in *. lia.
  - rewrite py_remove_count_other, count_occ_app by assumption; simpl.
    destruct (Nat.eq_dec websocket x); [congruence|].
    unfold WebSocket in *. lia.
Qed.

Lemma loop_end_receive_error (frames : list string) (e : exc)
      (rest : list event) :
  loop_end (map TextFrame frames ++ ReceiveError e :: rest) = Raise e.
Proof. induction frames as [|f frames IH]; simpl; [reflexivity|exact IH]. Qed.

(** X10.  Only [WebSocketDisconnect] is handled: when [receive_text]
    fails with an exception of another class, the exception leaves
    [websocket_endpoint] and the connection stays in the registry. *)
Theorem receive_error_leaks (websocket : WebSocket) (frames : list string)
        (e : exc) (rest : list event) (w : world) :
  exc_class_eqb (exc_cls e) WebSocketDisconnect = false ->
  let run :=
    websocket_endpoint websocket
      (map TextFrame frames ++ ReceiveError e :: rest) w in
  fst run = Raise e
  /\ active_connections (snd run) = (active_connections w ++ [websocket])%list
  /\ py_contains websocket (active_connections (snd run)) = true.
Proof.
  intros Hcls run. subst run.
  destruct (websocket_endpoint_eq websocket
              (map TextFrame frames ++ ReceiveError e :: rest) w)
    as [Hreg ->].
  rewrite loop_end_receive_error, Hcls; simpl.
  rewrite Hreg. repeat split. apply py_contains_app.
Qed.

Lemma receive_loop_stops (websocket : WebSocket) (pre rest : list event)
      (ev : event) :
  (forall data, ev <> TextFrame data) ->
  forall w,
    receive_loop websocket (pre ++ ev :: rest) w
    = receive_loop websocket (pre ++ [ev]) w.
Proof.
  intros Hev. induction pre as [|a pre IH]; intros w.
  - destruct ev as [data| |ex]; [now destruct (Hev data)| |]; reflexivity.
  - destruct a as [data| |ex]; simpl; try reflexivity.
    destruct (handle_frame websocket data w) as [[u|ex] w']; [|reflexivity].
    apply IH.
Qed.

(** X12.  The session ends at the first event that is not a text frame:
    whatever the connection delivers after a disconnect or a failed
    receive is never read, and changes nothing. *)
Theorem events_after_end_ignored (websocket : WebSocket)
        (pre rest : list event) (w : world) :
  websocket_endpoint websocket (pre ++ ClientDisconnect :: rest) w
  = websocket_endpoint websocket (pre ++ [ClientDisconnect]) w
  /\ forall e,
       websocket_endpoint websocket (pre ++ ReceiveError e :: rest) w
       = websocket_endpoint websocket (pre ++ [ReceiveError e]) w.
Proof.
  unfold websocket_endpoint, connect, modify, try_except_class; simpl.
  split; [|intros e]; rewrite receive_loop_stops; try reflexivity;
    intros data; discriminate.
Qed.

(** ** The mock flag *)

Ltac lower_cases c :=
  destruct c as [[] [] [] [] [] [] [] []]; vm_compute; intros H;
  first [discriminate H | now left | now right].

Lemma lower_is_1 (c : ascii) :
  ascii_lower c = "1"%char -> c = "1"%char \/ c = "1"%char.
Proof. lower_cases c. Qed.

Lemma lower_is_t (c : ascii) :
  ascii_lower c = "t"%char -> c = "t"%char \/ c = "T"%char.
Proof. lower_cases c. Qed.

Lemma lower_is_r (c : ascii) :
  ascii_lower c = "r"%char -> c = "r"%char \/ c = "R"%char.
Proof. lower_cases c. Qed.

Lemma lower_is_u (c : ascii) :
  ascii_lower c = "u"%char -> c = "u"%char \/ c = "U"%char.
Proof. lower_cases c. Qed.

Lemma lower_is_e (c : ascii) :
  ascii_lower c = "e"%char -> c = "e"%char \/ c = "E"%char.
Proof. lower_cases c. Qed.

Lemma lower_is_y (c : ascii) :
  ascii_lower c = "y"%char -> c = "y"%char \/ c = "Y"%char.
Proof. lower_cases c. Qed.

Lemma lower_is_s (c : ascii) :
  ascii_lower c = "s"%char -> c = "s"%char \/ c = "S"%char.
Proof. lower_cases c. Qed.

Lemma py_lower_cons (s : string) (x : ascii) (t : string) :
  py_lower s = String x t ->
  exists c s', s = String c s' /\ ascii_lower c = x /\ py_lower s' = t.
Proof.
  destruct s as [|c s']; simpl; intros H; [discriminate H|].
  injection H as Hc Ht. now exists c, s'.
Qed.

Lemma py_lower_nil (s : string) : py_lower s = EmptyString -> s = EmptyString.
Proof. destruct s; simpl; [reflexivity|discriminate]. Qed.

Ltac in_mock_values :=
  unfold mock_values; simpl;
  repeat first [left; reflexivity | right].

(** X13.  Mock mode is on exactly when the variable USE_MOCK is set to
    1, true or yes, in any mix of upper and lower case.  Unset, empty,
    padded with blanks or set to anything else (on, y, t, 0), it is
    off. *)
Theorem use_mock_values (v : option string) :
  use_mock_of_env v = true <-> exists s, v = Some s /\ In s mock_values.
Proof.
  split.
  - destruct v as [s|]; [|vm_compute; discriminate].
    intros H. exists s. split; [reflexivity|].
    unfold use_mock_of_env in H.
    apply orb_true_iff in H as [H|H]; [apply orb_true_iff in H as [H|H]|];
      apply String.eqb_eq in H.
    + apply py_lower_cons in H as (c1 & s1 & -> & H1 & H).
      apply py_lower_nil in H; subst s1.
      destruct (lower_is_1 _ H1); subst; in_mock_values.
    + apply py_lower_cons in H as (c1 & s1 & -> & H1 & H).
      apply py_lower_cons in H as (c2 & s2 & -> & H2 & H).
      apply py_lower_cons in H as (c3 & s3 & -> & H3 & H).
      apply py_lower_cons in H as (c4 & s4 & -> & H4 & H).
      apply py_lower_nil in H; subst s4.
      destruct (lower_is_t _ H1), (lower_is_r _ H2), (lower_is_u _ H3),
        (lower_is_e _ H4); subst; in_mock_values.
    + apply py_lower_cons in H as (c1 & s1 & -> & H1 & H).
      apply py_lower_cons in H as (c2 & s2 & -> & H2 & H).
      apply py_lower_cons in H as (c3 & s3 & -> & H3 & H).
      apply py_lower_nil in H; subst s3.
      destruct (lower_is_y _ H1), (lower_is_e _ H2), (lower_is_s _ H3);
        subst; in_mock_values.
  - intros (s & -> & Hin). unfold mock_values in Hin. simpl in Hin.
    repeat (destruct Hin as [<-|Hin]; [reflexivity|]).
    contradiction.
Qed.

End Server.

(* ================================================================== *)
(** * Concrete runs *)
(* ================================================================== *)

(** The adapter of a server with a key, without mock mode, with the new
    client and the reference decoder; the remote service is left open. *)
Abbreviation live_chat :=
  (call_openai_chat (Some "sk-test") "gpt-3.5-turbo" false true Decoder.loads).

(** The handler of a server in mock mode. *)
Abbreviation mock_frame :=
  (handle_frame (Some "sk-test") "gpt-3.5-turbo" true true Decoder.loads
                (replies JNull)).

(** ** The properties of section 8 of the specification, run *)

Example mock_frame_run :
  mock_frame 0 (Decoder.dq "{'id': 'abc', 'text': 'what is a derivative'}")
             initial_world
  = (Ret tt,
     World [] [] [JStr "what is a derivative"]
           [(0, JDict [("id", JStr "abc");
                       ("response", answer (JStr mock_explanation)
                                           (JStr mock_speech))])]).
Proof. vm_compute. reflexivity. Qed.

Example raw_frame_run :
  Decoder.loads "2+2?" = Raise (Exc JSONDecodeError "Extra data")
  /\ mock_frame 0 "2+2?" initial_world
     = (Ret tt,
        World [] [] [JStr "2+2?"]
              [(0, JDict [("id", JNull);
                          ("response", answer (JStr mock_explanation)
                                              (JStr mock_speech))])]).
Proof. vm_compute. split; reflexivity. Qed.

Example plain_text_reply :
  fst (live_chat (replies (JStr "hello")) (JStr "hi") initial_world)
  = Ret (answer (JStr "hello") (JStr "hello")).
Proof. vm_compute. reflexivity. Qed.

Example null_content_reply :
  fst (live_chat (replies JNull) (JStr "hi") initial_world)
  = Ret (answer JNull JNull).
Proof. vm_compute. reflexivity. Qed.

Example one_call_per_prompt :
  api_calls (snd (live_chat (replies (JStr "hello")) (JStr "hi") initial_world))
  = [Request false "gpt-3.5-turbo"
             (JList [JDict [("role", JStr "system");
                            ("content", JStr system_prompt)];
                     JDict [("role", JStr "user"); ("content", JStr "hi")]])
             (FDec false 2 (-1)) 800].
Proof. vm_compute. reflexivity. Qed.

(** ** Where the claims fail as stated *)


(** C2 as stated fails: mock mode without a key gives the missing-key
    pair, not the mock pair. *)
Lemma mock_without_key_counterexample :
  let result :=
    fst (call_openai_chat None "gpt-3.5-turbo" true true Decoder.loads
                          (replies JNull) (JStr "what is a derivative")
                          initial_world) in
  result = Ret (answer (JStr no_key_explanation) (JStr no_key_speech))
  /\ result <> Ret (answer (JStr mock_explanation) (JStr mock_speech)).
Proof.
  vm_compute. split; [reflexivity|].
  intros H. discriminate H.
Qed.

(** C4 as stated fails at the empty explanation: the raw text comes back
    in its place. *)
Lemma round_trip_counterexample :
  let text := Decoder.dq "{'explanation': '', 'speech': 'S'}" in
  let result :=
    fst (live_chat (replies (JStr text)) (JStr "hi") initial_world) in
  Decoder.loads text
  = Ret (JDict [("explanation", JStr EmptyString); ("speech", JStr "S")])
  /\ result = Ret (answer (JStr text) (JStr "S"))
  /\ result <> Ret (answer (JStr EmptyString) (JStr "S")).
Proof.
  vm_compute. repeat split.
  intros H. discriminate H.
Qed.

(** C5 as stated fails: the key 'explain' is present with an empty
    value, and the explanation is not taken from it. *)
Lemma fallback_keys_counterexample :
  let text := Decoder.dq "{'explain': '', 'speak': 'S'}" in
  let d := [("explain", JStr EmptyString); ("speak", JStr "S")] in
  let result :=
    fst (live_chat (replies (JStr text)) (JStr "hi") initial_world) in
  Decoder.loads text = Ret (JDict d)
  /\ fields_by_presence d (JStr text) = answer (JStr EmptyString) (JStr "S")
  /\ result = Ret (answer (JStr text) (JStr "S"))
  /\ result <> Ret (answer (JStr EmptyString) (JStr "S")).
Proof.
  vm_compute. repeat split.
  intros H. discriminate H.
Qed.

(** C6 as stated fails: an error text with "429" and without "quota"
    gets the billing guidance, not the generic message. *)
Lemma rate_limit_counterexample :
  let errmsg := "Error code: 429 - Rate limit reached for requests" in
  let result :=
    fst (live_chat (fails errmsg) (JStr "hi") initial_world) in
  py_in "quota" errmsg = false
  /\ result = Ret (answer (JStr (request_failed errmsg)) (JStr quota_user_msg))
  /\ result <> Ret (answer (JStr (request_failed errmsg))
                           (JStr unreachable_speech)).
Proof.
  vm_compute. repeat split.
  intros H. discriminate H.
Qed.

(** ** The theorems with hypotheses, at concrete inputs *)

Lemma mock_mode_answer_witness :
  let prompt := JStr "what is a derivative" in
  let run :=
    call_openai_chat (Some "sk-test") "gpt-3.5-turbo" true true Decoder.loads
                     (replies JNull) prompt initial_world in
  key_present (Some "sk-test") = true
  /\ run = (Ret (answer (JStr mock_explanation) (JStr mock_speech)),
            push_adapter_call prompt initial_world)
  /\ api_calls (snd run) = api_calls initial_world.
Proof.
  intros prompt run. split; [reflexivity|].
  apply (mock_mode_answer (Some "sk-test") "gpt-3.5-turbo" true true
                          Decoder.loads (replies JNull) prompt initial_world);
    reflexivity.
Defined.

Lemma missing_key_answer_witness :
  let prompt := JStr "what is a derivative" in
  let run :=
    call_openai_chat None "gpt-3.5-turbo" false true Decoder.loads
                     (replies JNull) prompt initial_world in
  key_present None = false
  /\ run = (Ret (answer (JStr no_key_explanation) (JStr no_key_speech)),
            push_adapter_call prompt initial_world)
  /\ api_calls (snd run) = api_calls initial_world.
Proof.
  intros prompt run. split; [reflexivity|].
  apply (missing_key_answer None "gpt-3.5-turbo" false true
                            Decoder.loads (replies JNull) prompt initial_world);
    reflexivity.
Defined.

Lemma round_trip_witness :
  let text :=
    Decoder.dq "{'explanation': 'The derivative is $2x$.', 'speech': 'two x'}" in
  fst (live_chat (replies (JStr text)) (JStr "d/dx x^2?") initial_world)
  = Ret (answer (JStr "The derivative is $2x$.") (JStr "two x")).
Proof.
  intros text.
  apply (round_trip (Some "sk-test") "gpt-3.5-turbo" false true Decoder.loads
                    (replies (JStr text)) (JStr "d/dx x^2?") initial_world
                    (chat_completion (JStr text)) text);
    [reflexivity | reflexivity | reflexivity | reflexivity
     | vm_compute; reflexivity | discriminate | discriminate].
Defined.

Lemma normalization_witness :
  let text := Decoder.dq "{'explain': 'E', 'speak': 'S'}" in
  fst (live_chat (replies (JStr text)) (JStr "hi") initial_world)
  = Ret (answer (JStr "E") (JStr "S"))
  /\ fst (live_chat (replies (JStr "hello")) (JStr "hi") initial_world)
     = Ret (answer (JStr "hello") (JStr "hello")).
Proof.
  intros text. split.
  - apply (proj1 (proj2
             (normalization (Some "sk-test") "gpt-3.5-turbo" false true
                Decoder.loads (replies (JStr text)) (JStr "hi") initial_world
                (chat_completion (JStr text)) text
                eq_refl eq_refl eq_refl eq_refl)));
      [discriminate | discriminate | vm_compute; reflexivity].
  - apply (proj2 (proj2
             (normalization (Some "sk-test") "gpt-3.5-turbo" false true
                Decoder.loads (replies (JStr "hello")) (JStr "hi")
                initial_world (chat_completion (JStr "hello")) "hello"
                eq_refl eq_refl eq_refl eq_refl))
           (Exc JSONDecodeError "Expecting value")).
    vm_compute; reflexivity.
Defined.

Lemma upstream_failure_witness :
  let quota := "You exceeded your current quota, please check your plan" in
  let reset := "Connection reset by peer" in
  fst (live_chat (fails quota) (JStr "hi") initial_world)
  = Ret (answer (JStr (request_failed quota)) (JStr quota_user_msg))
  /\ fst (live_chat (fails reset) (JStr "hi") initial_world)
     = Ret (answer (JStr (request_failed reset)) (JStr unreachable_speech)).
Proof.
  intros quota reset. split.
  - apply (proj1
             (upstream_failure (Some "sk-test") "gpt-3.5-turbo" false true
                Decoder.loads (fails quota) (JStr "hi") initial_world
                (Exc UpstreamError quota) eq_refl eq_refl eq_refl)).
    vm_compute; reflexivity.
  - apply (proj1 (proj2
             (upstream_failure (Some "sk-test") "gpt-3.5-turbo" false true
                Decoder.loads (fails reset) (JStr "hi") initial_world
                (Exc UpstreamError reset) eq_refl eq_refl eq_refl)));
      vm_compute; reflexivity.
Defined.

Lemma falsy_is_absent_witness :
  let text := Decoder.dq "{'explanation': '', 'speech': 'S'}" in
  fst (live_chat (replies (JStr text)) (JStr "hi") initial_world)
  = Ret (answer (JStr text) (JStr "S")).
Proof.
  intros text.
  apply (falsy_is_absent (Some "sk-test") "gpt-3.5-turbo" false true
           Decoder.loads (replies (JStr text)) (JStr "hi") initial_world
           (chat_completion (JStr text)) text
           [("explanation", JStr EmptyString); ("speech", JStr "S")]);
    [reflexivity | reflexivity | reflexivity | reflexivity
     | vm_compute; reflexivity].
Defined.

Lemma disconnect_unregisters_witness :
  let w := World [3] [] [] [] in
  let run :=
    websocket_endpoint (Some "sk-test") "gpt-3.5-turbo" true true
                       Decoder.loads (replies JNull) 7
                       (map TextFrame ["2+2?"] ++ [ClientDisconnect]) w in
  py_contains 7 (active_connections w) = false
  /\ fst run = Ret tt
  /\ py_contains 7 (active_connections (snd run)) = false
  /\ active_connections (snd run) = active_connections w
  /\ disconnect 7 w = (Ret tt, w).
Proof.
  intros w run. split; [reflexivity|].
  apply (disconnect_unregisters (Some "sk-test") "gpt-3.5-turbo" true true
           Decoder.loads (replies JNull) 7 ["2+2?"] [] w).
  reflexivity.
Defined.

(** ** The further theorems with hypotheses, at concrete inputs *)

Lemma non_object_json_witness :
  Decoder.loads "42" = Ret (JInt 42)
  /\ fst (live_chat (replies (JStr "42")) (JStr "6 * 7?") initial_world)
     = Ret (answer (JStr "42") (JStr "42")).
Proof.
  split; [vm_compute; reflexivity|].
  apply (non_object_json (Some "sk-test") "gpt-3.5-turbo" false true
           Decoder.loads (replies (JStr "42")) (JStr "6 * 7?") initial_world
           (chat_completion (JStr "42")) "42" (JInt 42));
    [reflexivity | reflexivity | reflexivity | reflexivity
     | vm_compute; reflexivity | intros d H; discriminate H].
Defined.

Lemma non_string_content_witness :
  fst (live_chat (replies JNull) (JStr "hi") initial_world)
  = Ret (answer JNull JNull).
Proof.
  apply (non_string_content (Some "sk-test") "gpt-3.5-turbo" false true
           Decoder.loads (replies JNull) (JStr "hi") initial_world
           (chat_completion JNull) JNull);
    reflexivity.
Defined.

Lemma failure_speech_witness :
  let errmsg := "Error code: 429 - Rate limit reached for requests" in
  fst (live_chat (fails errmsg) (JStr "hi") initial_world)
  = Ret (answer (JStr (request_failed errmsg)) (JStr quota_user_msg)).
Proof.
  intros errmsg.
  pose proof (failure_speech (Some "sk-test") "gpt-3.5-turbo" false true
                Decoder.loads (fails errmsg) (JStr "hi") initial_world
                (Exc UpstreamError errmsg) eq_refl eq_refl eq_refl) as H.
  vm_compute in H |- *. exact H.
Defined.

Lemma live_session_replies_witness :
  let service := fun (n : nat) (_ : request) =>
                   match n with
                   | O => Returns (chat_completion (JStr "first"))
                   | S _ => Raises (Exc UpstreamError "connection lost")
                   end in
  outbox (snd (websocket_endpoint (Some "sk-test") "gpt-3.5-turbo" false true
                 Decoder.loads service 5
                 [TextFrame "2+2?";
                  TextFrame (Decoder.dq "{'id': 7, 'text': 'hi'}");
                  ClientDisconnect]
                 initial_world))
  = [(5, JDict [("id", JNull);
                ("response", answer (JStr "first") (JStr "first"))]);
     (5, JDict [("id", JInt 7);
                ("response",
                 answer (JStr (request_failed "connection lost"))
                        (JStr unreachable_speech))])].
Proof.
  intros service.
  pose proof (live_session_replies (Some "sk-test") "gpt-3.5-turbo" false true
                Decoder.loads service 5
                [TextFrame "2+2?";
                 TextFrame (Decoder.dq "{'id': 7, 'text': 'hi'}");
                 ClientDisconnect]
                initial_world eq_refl eq_refl) as H.
  vm_compute in H |- *. exact H.
Defined.

Lemma canned_session_replies_witness :
  outbox (snd (websocket_endpoint (Some "sk-test") "gpt-3.5-turbo" true true
                 Decoder.loads (replies JNull) 5
                 [TextFrame (Decoder.dq "{'id': 'abc', 'text': 'what is a derivative'}");
                  TextFrame "2+2?"]
                 initial_world))
  = [(5, JDict [("id", JStr "abc");
                ("response", answer (JStr mock_explanation) (JStr mock_speech))]);
     (5, JDict [("id", JNull);
                ("response", answer (JStr mock_explanation) (JStr mock_speech))])].
Proof.
  pose proof (canned_session_replies (Some "sk-test") "gpt-3.5-turbo" true true
                Decoder.loads (replies JNull) 5
                [TextFrame (Decoder.dq "{'id': 'abc', 'text': 'what is a derivative'}");
                 TextFrame "2+2?"]
                initial_world (or_intror eq_refl)) as H.
  vm_compute in H |- *. exact H.
Defined.

Lemma receive_error_leaks_witness :
  let e := Exc RuntimeError "WebSocket is not connected" in
  let run :=
    websocket_endpoint (Some "sk-test") "gpt-3.5-turbo" true true
                       Decoder.loads (replies JNull) 7
                       (map TextFrame ["2+2?"] ++ [ReceiveError e])
                       (World [3] [] [] []) in
  fst run = Raise e
  /\ active_connections (snd run) = [3; 7]
  /\ py_contains 7 (active_connections (snd run)) = true.
Proof.
  intros e run.
  apply (receive_error_leaks (Some "sk-test") "gpt-3.5-turbo" true true
           Decoder.loads (replies JNull) 7 ["2+2?"] e [] (World [3] [] [] [])).
  reflexivity.
Defined.
